(** * Intersection of two 3D segments (main.cpp)

    A shallow embedding of [Vector3D], [Segment3D], [round_to_n] and
    [Intersect] from [src/main.cpp], and the properties of the specification
    checked against it.

    The C++ type [double] is modelled by the Standard Library's executable
    specification of IEEE-754 arithmetic ([SpecFloat], the Flocq-derived
    model behind Rocq's primitive floats) at the binary64 format: 53 bits of
    precision, exponent bound 1024, round to nearest, ties to even, one
    rounding per operation.  There is a single NaN (no payload), signed
    zeros and signed infinities.  Division never traps: it yields an
    infinity or NaN, as IEEE-754 prescribes. *)

From Stdlib Require Import ZArith Bool Lia List.
From Stdlib Require Import Floats.SpecFloat.
Import ListNotations.

Local Open Scope Z_scope.

(** ** The [double] type and its operations *)

Module Double.

Definition prec : Z := 53.
Definition emax : Z := 1024.

Definition double : Type := spec_float.

(** A well-formed binary64 datum: canonical mantissa, exponent in range. *)
Definition is_double (x : double) : bool := valid_binary prec emax x.

Definition add (x y : double) : double := SFadd prec emax x y.
Definition sub (x y : double) : double := SFsub prec emax x y.
Definition mul (x y : double) : double := SFmul prec emax x y.
Definition div (x y : double) : double := SFdiv prec emax x y.
Definition neg (x : double) : double := SFopp x.
Definition sqrt (x : double) : double := SFsqrt prec emax x.
Definition fabs (x : double) : double := SFabs x.

(** The C++ comparison operators on [double]; all are false on NaN. *)
Definition lt (x y : double) : bool := SFltb x y.
Definition le (x y : double) : bool := SFleb x y.
Definition gt (x y : double) : bool := lt y x.
Definition ge (x y : double) : bool := le y x.
Definition eqb (x y : double) : bool := SFeqb x y.

Definition isnan (x : double) : bool :=
  match x with S754_nan => true | _ => false end.

(** The macro [NAN]. *)
Definition NAN : double := S754_nan.

(** An integer literal converted to [double] (correctly rounded). *)
Definition of_Z (n : Z) : double := binary_normalize prec emax n 0 false.

(** [std::max(a, b)] is [(a < b) ? b : a]; [std::min(a, b)] is
    [(b < a) ? b : a].  Neither treats NaN specially. *)
Definition max (a b : double) : double := if lt a b then b else a.
Definition min (a b : double) : double := if lt b a then b else a.

(** [std::round]: the nearest integer, halfway cases away from zero.
    A finite datum [m * 2^e] with [e >= 0] is an integer already;
    otherwise the integer part of [m / 2^(-e)] is bumped when the
    remainder is at least a half.  The integer found is below [2^53]
    and is converted exactly. *)
Definition round (x : double) : double :=
  match x with
  | S754_finite s m e =>
      if 0 <=? e then x
      else
        let d := Z.pow 2 (- e) in
        let q := Z.div (Zpos m) d in
        let r := Z.modulo (Zpos m) d in
        let n := if d <=? 2 * r then q + 1 else q in
        binary_normalize prec emax (cond_Zopp s n) 0 s
  | _ => x
  end.

(** [std::pow(10.0, n)] for a non-negative [int n].  Up to [n = 22] the
    power [10^n] is a double and [std::pow] returns it; [Intersect] uses
    [n = 6] only.  From [n = 23] on [10^n] is not a double: the nearest one
    (ties to even) stands for the result here, while the C library may
    return a neighbour of it (it does at [n = 23], where [10^23] lies
    halfway between two doubles), so that nothing is to be read from this
    definition beyond [n = 22]. *)
Definition pow10 (n : nat) : double := of_Z (Z.pow 10 (Z.of_nat n)).

End Double.

Import Double.

Declare Scope double_scope.
Delimit Scope double_scope with D.
Bind Scope double_scope with double.
Infix "+" := add : double_scope.
Infix "-" := sub : double_scope.
Infix "*" := mul : double_scope.
Infix "/" := div : double_scope.
Notation "- x" := (neg x) : double_scope.
Infix "<?" := lt : double_scope.
Infix "<=?" := le : double_scope.
Infix ">?" := gt : double_scope.

(** ** The program *)

(** [constexpr double eps = 10e-6;] the double nearest to [1/100000],
    that is [0x3EE4F8B588E368F1]. *)
Definition eps : double := S754_finite false 5902958103587057 (-69).

Record Vector3D : Type := mkVector3D { X : double; Y : double; Z : double }.

Module Vector3D_.

(** [this->dot_product(v)]. *)
Definition dot_product (this v : Vector3D) : double :=
  (X v * X this + Y v * Y this + Z v * Z this)%D.

(** [this->cross_product(v)]. *)
Definition cross_product (this v : Vector3D) : Vector3D :=
  mkVector3D (Y this * Z v - Z this * Y v)%D
             (- (X this * Z v - Z this * X v))%D
             (X this * Y v - Y this * X v)%D.

(** [operator-], [operator+], [operator*(double)]. *)
Definition minus (this v : Vector3D) : Vector3D :=
  mkVector3D (X this - X v)%D (Y this - Y v)%D (Z this - Z v)%D.

Definition plus (this v : Vector3D) : Vector3D :=
  mkVector3D (X this + X v)%D (Y this + Y v)%D (Z this + Z v)%D.

Definition times (this : Vector3D) (factor : double) : Vector3D :=
  mkVector3D (X this * factor)%D (Y this * factor)%D (Z this * factor)%D.

(** [operator==] and [operator!=]. *)
Definition equals (this v : Vector3D) : bool :=
  ((X v - X this <=? eps) && (Y v - Y this <=? eps)
     && (Z v - Z this <=? eps))%D.

Definition not_equals (this v : Vector3D) : bool := negb (equals this v).

Definition length (this : Vector3D) : double :=
  sqrt (X this * X this + Y this * Y this + Z this * Z this)%D.

Definition is_nan (this : Vector3D) : bool :=
  if isnan (X this) || isnan (Y this) || isnan (Z this) then true else false.

End Vector3D_.

Import Vector3D_.

Declare Scope vec_scope.
Delimit Scope vec_scope with V.
Bind Scope vec_scope with Vector3D.
Infix "+" := plus : vec_scope.
Infix "-" := minus : vec_scope.
Infix "*" := times : vec_scope.

(** [Segment3D]; the field [end] of the source is [end_] here, [end] being a
    reserved word. *)
Record Segment3D : Type := mkSegment3D { start : Vector3D; end_ : Vector3D }.

(** [round_to_n(value, n)]. *)
Definition round_to_n (value : double) (n : nat) : double :=
  let factor := pow10 n in
  (round (value * factor) / factor)%D.

(** The value [Vector3D(NAN, NAN, NAN)] returned for "no intersection". *)
Definition NaN_vector : Vector3D := mkVector3D NAN NAN NAN.

(** [std::swap] on the pair [(t0, t1)], under the guard [t0 > t1]. *)
Definition swap_if_gt (t0 t1 : double) : double * double :=
  if (t0 >? t1)%D then (t1, t0) else (t0, t1).

(** [Intersect(s1, s2)], statement by statement. *)
Definition Intersect (s1 s2 : Segment3D) : Vector3D :=
  let P1 := start s1 in
  let P2 := end_ s1 in
  let Q1 := start s2 in
  let Q2 := end_ s2 in
  let u := (P2 - P1)%V in
  let v := (Q2 - Q1)%V in
  let w0 := (P1 - Q1)%V in
  let a := dot_product u u in
  let b := dot_product v u in
  let c := dot_product v v in
  let d := dot_product u w0 in
  let e := dot_product v w0 in
  if (fabs (length (cross_product v u)) <? eps)%D then
    let d := (length (cross_product u w0) / length u)%D in
    if (d >? of_Z 0)%D then NaN_vector
    else
      let t0 := (dot_product (Q1 - P1)%V u / dot_product u u)%D in
      let t1 := (dot_product (Q2 - P1)%V u / dot_product u u)%D in
      let '(t0, t1) := swap_if_gt t0 t1 in
      let t_start := max (of_Z 0) t0 in
      let t_end := min (of_Z 1) t1 in
      if (t_start >? t_end)%D then NaN_vector
      else (P1 + u * t_start)%V
  else
    let demoninator := (a * c - b * b)%D in
    let t := round_to_n ((- (d * c) + b * e) / demoninator)%D 6 in
    let s := ((e + b * t) / c)%D in
    let Pt := (P1 + u * t)%V in
    let Qs := (Q1 + v * s)%V in
    if (length (Pt - Qs)%V >? eps)%D then NaN_vector
    else if (t >? of_Z 1)%D || (t <? of_Z 0)%D
            || (s >? of_Z 1)%D || (s <? of_Z 0)%D
    then NaN_vector
    else Pt.

(** ** Test data of [test_intersection] *)

(** Vectors and segments with integer coordinates. *)
Definition vecZ (x y z : BinNums.Z) : Vector3D :=
  mkVector3D (of_Z x) (of_Z y) (of_Z z).

Definition segZ (a b c d e f : BinNums.Z) : Segment3D :=
  mkSegment3D (vecZ a b c) (vecZ d e f).

Definition segments : list (Segment3D * Segment3D) :=
  [ (segZ 1 0 0 (-1) 0 0, segZ 0 1 0 0 (-1) 0);
    (segZ 1 0 (-1) (-1) 0 1, segZ 0 1 0 0 (-1) 0);
    (segZ 1 0 (-1) (-1) 0 1, segZ 0 1 1 0 (-1) (-1));
    (segZ 1 0 2 (-1) 0 2, segZ 0 1 0 0 (-1) 0);
    (segZ 0 0 0 1 0 0, segZ 0 1 0 1 1 0);
    (segZ 0 0 0 1 1 1, segZ 2 0 0 2 1 1);
    (segZ 0 0 0 1 1 1, segZ 0 0 0 1 1 1);
    (segZ 0 0 0 1 1 1, segZ 2 2 2 3 3 3);
    (segZ 0 0 0 1 1 1, segZ 1 1 1 2 2 2);
    (segZ (-1) (-1) 0 1 1 0, segZ (-1) 1 0 1 (-1) 0) ].

Definition expected_results : list Vector3D :=
  [ vecZ 0 0 0; vecZ 0 0 0; vecZ 0 0 0; NaN_vector; NaN_vector; NaN_vector;
    vecZ 0 0 0; NaN_vector; vecZ 1 1 1; vecZ 0 0 0 ].

(** One iteration of the test loop: does test [i] pass? *)
Definition test_passes (ss : Segment3D * Segment3D) (expected : Vector3D) : bool :=
  let result := Intersect (fst ss) (snd ss) in
  if is_nan result && is_nan expected then true
  else negb (not_equals result expected).

(** ** Classes of doubles *)

Module Classify.

(** Zero or a finite non-zero number: neither NaN nor an infinity. *)
Definition is_finite (x : double) : bool :=
  match x with
  | S754_zero _ | S754_finite _ _ _ => true
  | _ => false
  end.

Definition is_zero (x : double) : bool :=
  match x with S754_zero _ => true | _ => false end.

(** [x] is a number (not NaN) whose sign bit is [s]. *)
Definition has_sign (s : bool) (x : double) : Prop :=
  match x with
  | S754_nan => False
  | S754_zero s' | S754_infinity s' | S754_finite s' _ _ => s' = s
  end.

(** NaN, or a number with a clear sign bit. *)
Definition nonneg_or_nan (x : double) : Prop :=
  match x with
  | S754_nan => True
  | S754_zero s | S754_infinity s | S754_finite s _ _ => s = false
  end.

Definition zero_or_nan (x : double) : Prop :=
  match x with
  | S754_nan | S754_zero _ => True
  | _ => False
  end.

(** Magnitudes of finite data are compared exponent first. *)
Definition cmp_mag (m1 : positive) (e1 : BinNums.Z) (m2 : positive) (e2 : BinNums.Z) :=
  match Z.compare e1 e2 with
  | Lt => Lt
  | Gt => Gt
  | Eq => Pos.compare m1 m2
  end.

Notation "'pzero'" := (S754_zero false).

(** [-0] read as [+0]; every other datum unchanged. *)
Definition drop_zero_sign (x : double) : double :=
  match x with
  | S754_zero _ => pzero
  | _ => x
  end.

Definition is_finite_nonzero (x : double) : bool :=
  match x with S754_finite _ _ _ => true | _ => false end.

End Classify.

Import Classify.

(** ** Predicates on vectors and names for the quantities of the parallel
    branch *)

Definition finite_vector (w : Vector3D) : Prop :=
  is_finite (X w) = true /\ is_finite (Y w) = true /\ is_finite (Z w) = true.

Definition origin : Vector3D := mkVector3D pzero pzero pzero.

Definition zero_vector (w : Vector3D) : Prop :=
  is_zero (X w) = true /\ is_zero (Y w) = true /\ is_zero (Z w) = true.

Definition zero_or_nan_vector (w : Vector3D) : Prop :=
  zero_or_nan (X w) /\ zero_or_nan (Y w) /\ zero_or_nan (Z w).

(** Equal as numbers: identical, or two zeros of whatever signs. *)
Definition same_number (x y : double) : Prop :=
  x = y \/ (is_zero x = true /\ is_zero y = true).

Definition same_point (p q : Vector3D) : Prop :=
  same_number (X p) (X q) /\ same_number (Y p) (Y q) /\
  same_number (Z p) (Z q).

Definition drop_zero_signs (p : Vector3D) : Vector3D :=
  mkVector3D (drop_zero_sign (X p)) (drop_zero_sign (Y p))
             (drop_zero_sign (Z p)).

(** The test [fabs(v.cross_product(u).length()) < eps]. *)
Definition parallel_test (s1 s2 : Segment3D) : bool :=
  let u := (end_ s1 - start s1)%V in
  let v := (end_ s2 - start s2)%V in
  (fabs (length (cross_product v u)) <? eps)%D.

(** The local [d]: [u.cross_product(w0).length() / u.length()]. *)
Definition line_distance (s1 s2 : Segment3D) : double :=
  let u := (end_ s1 - start s1)%V in
  let w0 := (start s1 - start s2)%V in
  (length (cross_product u w0) / length u)%D.

(** The projection [(Q - P1).dot_product(u) / u.dot_product(u)] of a point
    [Q] on the line of segment [s1]. *)
Definition projection (s1 : Segment3D) (Q : Vector3D) : double :=
  let u := (end_ s1 - start s1)%V in
  (dot_product (Q - start s1)%V u / dot_product u u)%D.

(** *** Exact geometry, for stating what "collinear" means

    A finite double [m * 2^e] has [e >= -1074]; multiplied by [2^1074] it is
    an integer.  Collinearity is read on these integers, without rounding. *)

Definition scaled (x : double) : BinNums.Z :=
  match x with
  | S754_finite s m e => cond_Zopp s (Zpos m) * 2 ^ (e + 1074)
  | _ => 0
  end.

Definition zvec : Type := (BinNums.Z * BinNums.Z * BinNums.Z)%type.

Definition scaled_point (p : Vector3D) : zvec :=
  (scaled (X p), scaled (Y p), scaled (Z p)).

Definition zminus (a b : zvec) : zvec :=
  let '(ax, ay, az) := a in
  let '(bx, by_, bz) := b in
  (ax - bx, ay - by_, az - bz).

Definition zcross (a b : zvec) : zvec :=
  let '(ax, ay, az) := a in
  let '(bx, by_, bz) := b in
  (ay * bz - az * by_, az * bx - ax * bz, ax * by_ - ay * bx).

Definition zdot (a b : zvec) : BinNums.Z :=
  let '(ax, ay, az) := a in
  let '(bx, by_, bz) := b in
  ax * bx + ay * by_ + az * bz.

Definition finite_segment (s : Segment3D) : Prop :=
  finite_vector (start s) /\ finite_vector (end_ s).

(** Both endpoints of [s2] lie on the line through the endpoints of [s1]. *)
Definition collinear_exact (s1 s2 : Segment3D) : Prop :=
  finite_segment s1 /\ finite_segment s2 /\
  let p1 := scaled_point (start s1) in
  let u := zminus (scaled_point (end_ s1)) p1 in
  zcross u (zminus (scaled_point (start s2)) p1) = (0, 0, 0) /\
  zcross u (zminus (scaled_point (end_ s2)) p1) = (0, 0, 0).

(** [E] is an endpoint of both segments, and the only such point. *)
Definition share_exactly_one_endpoint (s1 s2 : Segment3D) (E : Vector3D) : Prop :=
  (E = start s1 \/ E = end_ s1) /\ (E = start s2 \/ E = end_ s2) /\
  forall p : Vector3D,
    (p = start s1 \/ p = end_ s1) -> (p = start s2 \/ p = end_ s2) -> p = E.

(** [E] lies on the segment [s], endpoints included. *)
Definition on_segment_exact (s : Segment3D) (E : Vector3D) : Prop :=
  finite_segment s /\ finite_vector E /\
  let p1 := scaled_point (start s) in
  let u := zminus (scaled_point (end_ s)) p1 in
  let w := zminus (scaled_point E) p1 in
  zcross u w = (0, 0, 0) /\ 0 <= zdot w u <= zdot u u.

(** The exact parameter of [Q] along [s1] is greater than one: [Q] lies
    strictly beyond the end of [s1]. *)
Definition beyond_end_exact (s1 : Segment3D) (Q : Vector3D) : Prop :=
  let p1 := scaled_point (start s1) in
  let u := zminus (scaled_point (end_ s1)) p1 in
  zdot u u < zdot (zminus (scaled_point Q) p1) u.

(** ** Quantities and inputs named in the statements below *)

(** [x] is outside the unit interval, as the source tests it:
    [x > 1 || x < 0]. *)
Definition outside_unit (x : double) : bool :=
  (x >? of_Z 1)%D || (x <? of_Z 0)%D.

(** Two parallel segments [2^-100] apart, a distance far below [eps]. *)
Definition tiny : double := S754_finite false 4503599627370496 (-152).

Definition near_parallel_1 : Segment3D := segZ 0 0 0 1 0 0.
Definition near_parallel_2 : Segment3D :=
  mkSegment3D (mkVector3D (of_Z 0) tiny (of_Z 0))
              (mkVector3D (of_Z 1) tiny (of_Z 0)).

(** Dividing by a zero of either sign gives an infinity or NaN, never a
    trap. *)
Definition inf_or_nan (x : double) : bool :=
  match x with
  | S754_nan | S754_infinity _ => true
  | _ => false
  end.

(** Segment [(0,0,0)-(3,0,0)] and segment [(0,1,0)-(2,0,0)], which ends on
    the first one at [(2,0,0)]. *)
Definition sym_1 : Segment3D := segZ 0 0 0 3 0 0.
Definition sym_2 : Segment3D := segZ 0 1 0 2 0 0.

(** The parameters [t] and [s] of the non-parallel branch. *)
Definition param_t (s1 s2 : Segment3D) : double :=
  let u := (end_ s1 - start s1)%V in
  let v := (end_ s2 - start s2)%V in
  let w0 := (start s1 - start s2)%V in
  let a := dot_product u u in
  let b := dot_product v u in
  let c := dot_product v v in
  let d := dot_product u w0 in
  let e := dot_product v w0 in
  round_to_n ((- (d * c) + b * e) / (a * c - b * b))%D 6.

Definition param_s (s1 s2 : Segment3D) : double :=
  let u := (end_ s1 - start s1)%V in
  let v := (end_ s2 - start s2)%V in
  let w0 := (start s1 - start s2)%V in
  let b := dot_product v u in
  let c := dot_product v v in
  let e := dot_product v w0 in
  ((e + b * param_t s1 s2) / c)%D.

(** [2^1023], the largest power of two among the doubles. *)
Definition two_1023 : double := S754_finite false 4503599627370496 971.

(** A segment along the x axis whose direction overflows:
    [2^1023 - (-2^1023)] is [+inf]. *)
Definition very_long : Segment3D :=
  mkSegment3D (mkVector3D (neg two_1023) (of_Z 0) (of_Z 0))
              (mkVector3D two_1023 (of_Z 0) (of_Z 0)).

Definition two_600 : double := S754_finite false 4503599627370496 548.

(** The segment from the origin to [(2^600, 2^600, 0)]. *)
Definition long_diagonal : Segment3D :=
  mkSegment3D (vecZ 0 0 0) (mkVector3D two_600 two_600 (of_Z 0)).

(** The points [D], [2D] and [4D] of the line through the origin with
    direction [D = (1 + 2^-52, 1 + 3 * 2^-52, 0)]. *)
Definition on_line (k : BinNums.Z) : Vector3D :=
  mkVector3D (S754_finite false 4503599627370497 (k - 52))
             (S754_finite false 4503599627370499 (k - 52))
             (of_Z 0).

Definition touch_1 : Segment3D := mkSegment3D (on_line 0) (on_line 1).
Definition touch_2 : Segment3D := mkSegment3D (on_line 2) (on_line 1).

(** ** The test driver *)

(** The body of the loop of [test_intersection] on one test: the counters
    [(test_passed, test_failed)] after it. *)
Definition test_step (ss : Segment3D * Segment3D) (expected : Vector3D)
    (counters : nat * nat) : nat * nat :=
  let '(test_passed, test_failed) := counters in
  let result := Intersect (fst ss) (snd ss) in
  if is_nan result && is_nan expected then (S test_passed, test_failed)
  else if not_equals result expected then (test_passed, S test_failed)
  else (S test_passed, test_failed).

(** The loop [for (int i = 0; i < segments.size(); i++)], which reads
    [expected_results[i]].  Reading past the end of [expected_results] is
    undefined in the source; it is [None] here.  The [int] counters are
    natural numbers. *)
Fixpoint test_loop (segs : list (Segment3D * Segment3D))
    (expected : list Vector3D) (i : nat) (counters : nat * nat)
    : option (nat * nat) :=
  match segs with
  | [] => Some counters
  | ss :: rest =>
      match nth_error expected i with
      | Some e => test_loop rest expected (S i) (test_step ss e counters)
      | None => None
      end
  end.

(** [test_intersection()]: the two counters it prints at the end. *)
Definition test_intersection : option (nat * nat) :=
  test_loop segments expected_results 0 (0%nat, 0%nat).

(** A segment run the other way. *)
Definition reverse (s : Segment3D) : Segment3D :=
  mkSegment3D (end_ s) (start s).

(** ** Further classes of doubles *)

(** [x] and [y] are opposite numbers: [x] is [-y], or both are zeros (of
    whatever signs). *)
Definition opposite (x y : double) : Prop := same_number x (neg y).

(** NaN or [+inf]. *)
Definition pinf_or_nan (x : double) : Prop :=
  match x with
  | S754_nan | S754_infinity false => True
  | _ => False
  end.

(** ** The arithmetic of the source on the IEEE-754 operations themselves

    The statements on the two branches of [Intersect] spell every quantity
    out, coordinate by coordinate, on the operations of the binary64 model
    (53 bits of precision, exponent bound 1024) and on literal constants. *)

Declare Scope ieee_scope.
Delimit Scope ieee_scope with F.
Notation "x + y" := (SFadd 53 1024 x y) : ieee_scope.
Notation "x - y" := (SFsub 53 1024 x y) : ieee_scope.
Notation "x * y" := (SFmul 53 1024 x y) : ieee_scope.
Notation "x / y" := (SFdiv 53 1024 x y) : ieee_scope.
Notation "- x" := (SFopp x) : ieee_scope.
Notation "x <? y" := (SFltb x y) : ieee_scope.
Notation "x >? y" := (SFltb y x) : ieee_scope.
Notation "x <=? y" := (SFleb x y) : ieee_scope.
Notation "'sqrt64' x" := (SFsqrt 53 1024 x) (at level 10) : ieee_scope.

(** The integer nearest to [z / unit], halfway cases away from zero
    ([unit] positive). *)
Definition round_half_away (z unit : BinNums.Z) : BinNums.Z :=
  Z.sgn z * ((2 * Z.abs z + unit) / (2 * unit)).

(** All six coordinates of a segment are well-formed doubles. *)
Definition well_formed_segment (s : Segment3D) : bool :=
  let ok p := is_double (X p) && is_double (Y p) && is_double (Z p) in
  ok (start s) && ok (end_ s).

(** [2^k] as a double, for [-1022 <= k <= 1023]. *)
Definition two_pow (k : BinNums.Z) : double :=
  S754_finite false 4503599627370496 (k - 52).

(** A segment of length [2^-10] on the x axis, and a segment that leaves
    the axis at [(-1,0,0)] with slope [2^-8].  The lines meet at
    [(-1,0,0)] only and the segments have no common point, yet
    [|v x u| = 2^-17] is below [eps]. *)
Definition short_1 : Segment3D :=
  mkSegment3D (vecZ 0 0 0) (mkVector3D (two_pow (-10)) (of_Z 0) (of_Z 0)).
Definition slanted_2 : Segment3D :=
  mkSegment3D (vecZ (-1) 0 0) (mkVector3D (of_Z 1) (two_pow (-7)) (of_Z 0)).

(** [E] is farther than [eps] from the line through the endpoints of [s]
    (hence from every point of [s]): [|v x (E - Q1)|^2 > eps^2 * |v|^2],
    without rounding. *)
Definition farther_than_eps_exact (s : Segment3D) (E : Vector3D) : Prop :=
  let q1 := scaled_point (start s) in
  let v := zminus (scaled_point (end_ s)) q1 in
  let c := zcross v (zminus (scaled_point E) q1) in
  scaled eps ^ 2 * zdot v v < zdot c c.

(** Two segments of the x axis that meet at [(1,0,0)] only:
    [(10^16,0,0) .. (1,0,0)] and [(1,0,0) .. (-10^16,0,0)]. *)
Definition far_1 : Segment3D := segZ (10 ^ 16) 0 0 1 0 0.
Definition far_2 : Segment3D := segZ 1 0 0 (- 10 ^ 16) 0 0.

(** The local [demoninator] of the non-parallel branch, [a * c - b * b]. *)
Definition demoninator (s1 s2 : Segment3D) : double :=
  let u := (end_ s1 - start s1)%V in
  let v := (end_ s2 - start s2)%V in
  (dot_product u u * dot_product v v - dot_product v u * dot_product v u)%D.

(** ** Facts about binary64 arithmetic *)

Module DoubleFacts.

(** *** Rounding never makes a NaN out of a non-negative mantissa *)

Lemma shr_1_nonneg mrs : 0 <= shr_m mrs -> 0 <= shr_m (shr_1 mrs).
Proof.
  destruct mrs as [m r s]; simpl.
  destruct m as [|p|p]; simpl; try lia; destruct p; simpl; lia.
Qed.

Lemma iter_shr_1_nonneg p : forall mrs,
    0 <= shr_m mrs -> 0 <= shr_m (iter_pos shr_1 p mrs).
Proof.
  induction p as [p IH|p IH|]; intros mrs H; simpl.
  - apply IH, IH, shr_1_nonneg, H.
  - apply IH, IH, H.
  - apply shr_1_nonneg, H.
Qed.

Lemma shr_record_of_loc_m m l : shr_m (shr_record_of_loc m l) = m.
Proof. destruct l as [|[| |]]; reflexivity. Qed.

Lemma shr_fexp_nonneg m e l :
  0 <= m -> 0 <= shr_m (fst (shr_fexp prec emax m e l)).
Proof.
  intros H. unfold shr_fexp, shr.
  destruct (fexp prec emax (Zdigits2 m + e) - e) as [|p|p]; simpl;
    try (rewrite shr_record_of_loc_m; exact H).
  apply iter_shr_1_nonneg. rewrite shr_record_of_loc_m; exact H.
Qed.

Lemma round_nearest_even_nonneg m l : 0 <= m -> 0 <= round_nearest_even m l.
Proof.
  intros H. destruct l as [|[| |]]; simpl; try lia.
  destruct (Z.even m); lia.
Qed.

Lemma binary_round_aux_sign s m e l :
  0 <= m -> has_sign s (binary_round_aux prec emax s m e l).
Proof.
  intros H. unfold binary_round_aux.
  pose proof (shr_fexp_nonneg m e l H) as H1.
  destruct (shr_fexp prec emax m e l) as [mrs' e']. simpl in H1.
  pose proof (shr_fexp_nonneg _ e' loc_Exact
                (round_nearest_even_nonneg _ (loc_of_shr_record mrs') H1)) as H2.
  destruct (shr_fexp prec emax _ e' loc_Exact) as [mrs'' e'']. simpl in H2.
  destruct (shr_m mrs'') as [|p|p]; simpl; try reflexivity; try lia.
  destruct (Z.leb _ _); simpl; reflexivity.
Qed.

Lemma binary_round_sign s m e : has_sign s (binary_round prec emax s m e).
Proof.
  unfold binary_round.
  destruct (shl_align m e _) as [mz ez].
  apply binary_round_aux_sign. lia.
Qed.

Lemma has_sign_not_nan s x : has_sign s x -> isnan x = false.
Proof. destruct x; simpl; intros H; try reflexivity; contradiction. Qed.

Lemma has_sign_false_nonneg x : has_sign false x -> nonneg_or_nan x.
Proof. destruct x; simpl; auto. Qed.

Lemma binary_round_aux_nonneg m e l :
  nonneg_or_nan (binary_round_aux prec emax false m e l).
Proof.
  unfold binary_round_aux.
  destruct (shr_fexp prec emax m e l) as [mrs' e'].
  destruct (shr_fexp prec emax _ e' loc_Exact) as [mrs'' e''].
  destruct (shr_m mrs'') as [|p|p]; simpl; try reflexivity; try exact I.
  destruct (Z.leb _ _); simpl; reflexivity.
Qed.

(** *** NaN is absorbing *)

Lemma mul_nan_r x : mul x NAN = NAN.
Proof. destruct x; reflexivity. Qed.

Lemma add_nan_r x : add x NAN = NAN.
Proof. destruct x; reflexivity. Qed.

Lemma div_nan_l x : div NAN x = NAN.
Proof. reflexivity. Qed.

(** *** A finite result comes from finite operands *)

Lemma add_finite_inv x y :
  is_finite (add x y) = true -> is_finite x = true /\ is_finite y = true.
Proof.
  destruct x as [sx|sx| |sx mx ex], y as [sy|sy| |sy my ey]; simpl;
    try discriminate; try (split; reflexivity); destruct sx, sy; discriminate.
Qed.

Lemma sub_finite_inv x y :
  is_finite (sub x y) = true -> is_finite x = true /\ is_finite y = true.
Proof.
  destruct x as [sx|sx| |sx mx ex], y as [sy|sy| |sy my ey]; simpl;
    try discriminate; try (split; reflexivity); destruct sx, sy; discriminate.
Qed.

Lemma mul_finite_inv x y :
  is_finite (mul x y) = true -> is_finite x = true /\ is_finite y = true.
Proof.
  destruct x as [sx|sx| |sx mx ex], y as [sy|sy| |sy my ey]; simpl;
    try discriminate; try (split; reflexivity).
Qed.

Lemma neg_finite x : is_finite (neg x) = is_finite x.
Proof. destruct x; reflexivity. Qed.

Lemma fabs_finite x : is_finite (fabs x) = is_finite x.
Proof. destruct x; reflexivity. Qed.

Lemma sqrt_finite_inv x : is_finite (sqrt x) = true -> is_finite x = true.
Proof. destruct x as [s|[|]| |s m e]; simpl; try discriminate; reflexivity. Qed.

(** Anything strictly below a finite bound in absolute value is finite. *)
Lemma fabs_lt_finite x y : lt (fabs x) y = true -> is_finite x = true.
Proof.
  destruct x as [s|s| |s m e]; try reflexivity; unfold lt, SFltb; simpl.
  - destruct y as [sy|[|]| |sy my ey]; discriminate.
  - discriminate.
Qed.

(** *** Finite operands never give NaN under [*] and [+] *)

Lemma mul_finite_not_nan x y :
  is_finite x = true -> is_finite y = true -> isnan (mul x y) = false.
Proof.
  destruct x as [sx|sx| |sx mx ex], y as [sy|sy| |sy my ey]; simpl;
    try discriminate; try reflexivity; intros _ _.
  apply (has_sign_not_nan (xorb sx sy)), binary_round_aux_sign. lia.
Qed.

Lemma binary_normalize_not_nan m e :
  isnan (binary_normalize prec emax m e false) = false.
Proof.
  destruct m as [|p|p]; simpl; try reflexivity.
  - apply (has_sign_not_nan false), binary_round_sign.
  - apply (has_sign_not_nan true), binary_round_sign.
Qed.

Lemma add_finite_not_nan x y :
  is_finite x = true -> isnan y = false -> isnan (add x y) = false.
Proof.
  destruct x as [sx|sx| |sx mx ex], y as [sy|sy| |sy my ey]; simpl;
    try discriminate; try reflexivity; intros _ _.
  - destruct sx, sy; reflexivity.
  - apply binary_normalize_not_nan.
Qed.

(** *** The order on numbers *)

Lemma cmp_mag_antisym m1 e1 m2 e2 :
  cmp_mag m2 e2 m1 e1 = CompOpp (cmp_mag m1 e1 m2 e2).
Proof.
  unfold cmp_mag. rewrite (Z.compare_antisym e1 e2).
  destruct (e1 ?= e2); simpl; try reflexivity.
  apply Pos.compare_antisym.
Qed.

Lemma cmp_mag_eq m1 e1 m2 e2 :
  cmp_mag m1 e1 m2 e2 = Eq -> m1 = m2 /\ e1 = e2.
Proof.
  unfold cmp_mag. destruct (Z.compare_spec e1 e2); try discriminate.
  intros H1. apply Pos.compare_eq in H1. auto.
Qed.

Lemma cmp_mag_lt_trans m1 e1 m2 e2 m3 e3 :
  cmp_mag m1 e1 m2 e2 = Lt -> cmp_mag m2 e2 m3 e3 = Lt ->
  cmp_mag m1 e1 m3 e3 = Lt.
Proof.
  unfold cmp_mag.
  destruct (Z.compare_spec e1 e2), (Z.compare_spec e2 e3),
    (Z.compare_spec e1 e3); try discriminate; try lia; try reflexivity.
  rewrite !Pos.compare_lt_iff. lia.
Qed.

Lemma compare_finite s1 m1 e1 s2 m2 e2 :
  SFcompare (S754_finite s1 m1 e1) (S754_finite s2 m2 e2) =
    Some (match s1, s2 with
          | true, false => Lt
          | false, true => Gt
          | false, false => cmp_mag m1 e1 m2 e2
          | true, true => CompOpp (cmp_mag m1 e1 m2 e2)
          end).
Proof.
  unfold cmp_mag; simpl. destruct s1, s2; try reflexivity;
    destruct (e1 ?= e2); reflexivity.
Qed.

Lemma compare_antisym x y c :
  SFcompare x y = Some c -> SFcompare y x = Some (CompOpp c).
Proof.
  destruct x as [sx|sx| |sx mx ex], y as [sy|sy| |sy my ey];
    try discriminate;
    try (simpl; intros H; injection H as <-; destruct sx; reflexivity);
    try (simpl; intros H; injection H as <-; destruct sy; reflexivity).
  - simpl; intros H; injection H as <-; destruct sx, sy; reflexivity.
  - rewrite !compare_finite. intros H; injection H as <-.
    rewrite (cmp_mag_antisym mx ex my ey).
    destruct sx, sy; try reflexivity.
  Qed.

Lemma compare_eq_l a b c :
  SFcompare a b = Some Eq -> SFcompare a c = SFcompare b c.
Proof.
  destruct a as [sa|sa| |sa ma ea], b as [sb|sb| |sb mb eb];
    try discriminate;
    try (solve [simpl; destruct sa, sb; try discriminate; intros _;
                destruct c; reflexivity]).
  - rewrite compare_finite. intros H.
    assert (sa = sb /\ cmp_mag ma ea mb eb = Eq) as [-> H1].
    { destruct sa, sb; try discriminate; split; try reflexivity.
      - destruct (cmp_mag ma ea mb eb); try discriminate; reflexivity.
      - congruence. }
    apply cmp_mag_eq in H1 as [-> ->]. reflexivity.
Qed.

Lemma compare_lt_trans a b c :
  SFcompare a b = Some Lt -> SFcompare b c = Some Lt ->
  SFcompare a c = Some Lt.
Proof.
  destruct a as [sa|sa| |sa ma ea], b as [sb|sb| |sb mb eb],
    c as [sc|sc| |sc mc ec]; try discriminate;
    try (destruct sa, sb, sc; simpl; intros; congruence);
    try (destruct sa, sb; simpl; intros; congruence);
    try (destruct sa, sc; simpl; intros; congruence);
    try (destruct sb, sc; simpl; intros; congruence).
  rewrite !compare_finite.
  destruct sa, sb, sc; try congruence; intros H1 H2;
    injection H1 as H1; injection H2 as H2; f_equal.
  - rewrite <- cmp_mag_antisym in *.
    apply (cmp_mag_lt_trans _ _ mb eb); assumption.
  - apply (cmp_mag_lt_trans _ _ mb eb); assumption.
Qed.

Lemma lt_le x y : lt x y = true -> le x y = true.
Proof.
  unfold lt, le, SFltb, SFleb.
  destruct (SFcompare x y) as [[| |]|]; congruence.
Qed.

Lemma le_not_lt x y : le x y = true -> lt y x = false.
Proof.
  unfold lt, le, SFltb, SFleb.
  destruct (SFcompare x y) as [c|] eqn:E; try discriminate.
  rewrite (compare_antisym _ _ _ E). destruct c; simpl; congruence.
Qed.

Lemma compare_not_nan x y :
  isnan x = false -> isnan y = false -> exists c, SFcompare x y = Some c.
Proof.
  destruct x, y; try discriminate; intros _ _; simpl; eexists; reflexivity.
Qed.

Lemma not_lt_le x y :
  isnan x = false -> isnan y = false -> lt y x = false -> le x y = true.
Proof.
  intros Hx Hy. destruct (compare_not_nan x y Hx Hy) as [c E].
  unfold lt, le, SFltb, SFleb.
  rewrite E, (compare_antisym _ _ _ E). destruct c; simpl; congruence.
Qed.

Lemma le_lt_trans a b c : le a b = true -> lt b c = true -> lt a c = true.
Proof.
  unfold lt, le, SFltb, SFleb.
  destruct (SFcompare a b) as [[| |]|] eqn:E1; try discriminate; intros _.
  - rewrite (compare_eq_l _ _ c E1). trivial.
  - destruct (SFcompare b c) as [[| |]|] eqn:E2; try discriminate; intros _.
    rewrite (compare_lt_trans _ _ _ E1 E2). reflexivity.
Qed.

Lemma lt_not_nan x y : lt x y = true -> isnan x = false /\ isnan y = false.
Proof. destruct x, y; try discriminate; split; reflexivity. Qed.

Lemma le_not_nan x y : le x y = true -> isnan x = false /\ isnan y = false.
Proof. destruct x, y; try discriminate; split; reflexivity. Qed.

(** *** [std::max(0.0, .)] and [std::min(1.0, .)] *)

Lemma max_0_not_nan t : isnan (max (of_Z 0) t) = false.
Proof.
  unfold max. destruct (lt (of_Z 0) t) eqn:E; try reflexivity.
  apply lt_not_nan in E. tauto.
Qed.

Lemma max_0_ge t : le (of_Z 0) (max (of_Z 0) t) = true.
Proof.
  unfold max. destruct (lt (of_Z 0) t) eqn:E; try reflexivity.
  apply lt_le, E.
Qed.

Lemma min_1_not_nan t : isnan (min (of_Z 1) t) = false.
Proof.
  unfold min. destruct (lt t (of_Z 1)) eqn:E; try reflexivity.
  apply lt_not_nan in E. tauto.
Qed.

Lemma min_1_le t : le (min (of_Z 1) t) (of_Z 1) = true.
Proof.
  unfold min. destruct (lt t (of_Z 1)) eqn:E; try reflexivity.
  apply lt_le, E.
Qed.

(** A clipped start that does not exceed the clipped end lies in [0, 1]. *)
Lemma clip_in_unit t0 t1 :
  gt (max (of_Z 0) t0) (min (of_Z 1) t1) = false ->
  le (of_Z 0) (max (of_Z 0) t0) = true /\
  le (max (of_Z 0) t0) (of_Z 1) = true.
Proof.
  intros H. split; [apply max_0_ge|].
  apply not_lt_le in H; try apply max_0_not_nan; try apply min_1_not_nan.
  unfold gt in *.
  unfold min in H |- *. destruct (lt t1 (of_Z 1)) eqn:E.
  - apply lt_le. apply (le_lt_trans _ t1); assumption.
  - exact H.
Qed.

(** At or above a threshold means not below it in absolute value. *)
Lemma ge_not_fabs_lt x y : le y x = true -> has_sign false y ->
                           lt (fabs x) y = false.
Proof.
  intros H Hy. destruct x as [s|s| |s m e].
  - destruct y as [sy|sy| |sy my ey]; simpl in *; subst;
      try contradiction; try reflexivity; discriminate.
  - destruct s; [destruct y; simpl in *; subst; discriminate|].
    apply le_not_lt, H.
  - reflexivity.
  - destruct s; [destruct y; simpl in *; subst; discriminate|].
    apply le_not_lt, H.
Qed.

(** *** Signs: squares, their sums, roots and quotients *)

Lemma mul_self_nonneg x : nonneg_or_nan (mul x x).
Proof.
  destruct x as [s|s| |s m e]; simpl; try exact I; try apply xorb_nilpotent.
  rewrite xorb_nilpotent. apply binary_round_aux_nonneg.
Qed.

Lemma add_nonneg x y :
  nonneg_or_nan x -> nonneg_or_nan y -> nonneg_or_nan (add x y).
Proof.
  destruct x as [sx|sx| |sx mx ex], y as [sy|sy| |sy my ey]; simpl;
    intros Hx Hy; subst; try exact I; try reflexivity.
  apply has_sign_false_nonneg, binary_round_sign.
Qed.

Lemma sqrt_nonneg x : nonneg_or_nan x -> nonneg_or_nan (sqrt x).
Proof.
  destruct x as [s|s| |s m e]; simpl; intros Hx; subst; try exact I;
    try reflexivity.
  unfold sqrt, SFsqrt.
  destruct (SFsqrt_core_binary prec emax (Z.pos m) e) as [[mz ez] lz].
  apply binary_round_aux_nonneg.
Qed.

Lemma div_nonneg x y :
  nonneg_or_nan x -> nonneg_or_nan y -> nonneg_or_nan (div x y).
Proof.
  destruct x as [sx|sx| |sx mx ex], y as [sy|sy| |sy my ey]; simpl;
    intros Hx Hy; subst; try exact I; try reflexivity.
  unfold div, SFdiv.
  destruct (SFdiv_core_binary prec emax (Z.pos mx) ex (Z.pos my) ey)
    as [[mz ez] lz].
  apply binary_round_aux_nonneg.
Qed.

(** A non-negative number that is not zero is strictly positive. *)
Lemma nonneg_nonzero_pos x :
  nonneg_or_nan x -> isnan x = false -> eqb x (of_Z 0) = false ->
  gt x (of_Z 0) = true.
Proof.
  destruct x as [s|s| |s m e]; simpl; intros Hx N Z0; subst;
    try discriminate; reflexivity.
Qed.

(** *** Zeros *)

Lemma sub_diag x : is_finite x = true -> sub x x = pzero.
Proof.
  destruct x as [s|s| |s m e]; try discriminate; intros _.
  - destruct s; reflexivity.
  - unfold sub, SFsub. rewrite Z.sub_diag. reflexivity.
Qed.

Lemma add_pzero_r x : add x pzero = drop_zero_sign x.
Proof. destruct x as [[|]|s| |s m e]; reflexivity. Qed.

Lemma mul_zero_or_nan_l x y : zero_or_nan x -> zero_or_nan (mul x y).
Proof. destruct x, y; simpl; intros; trivial; contradiction. Qed.

Lemma mul_zero_or_nan_r x y : zero_or_nan y -> zero_or_nan (mul x y).
Proof. destruct x, y; simpl; intros; trivial; contradiction. Qed.

Lemma add_zero_or_nan x y :
  zero_or_nan x -> zero_or_nan y -> zero_or_nan (add x y).
Proof.
  destruct x as [[|]| | |], y as [[|]| | |]; simpl; intros; trivial;
    contradiction.
Qed.

Lemma sub_zero_or_nan x y :
  zero_or_nan x -> zero_or_nan y -> zero_or_nan (sub x y).
Proof.
  destruct x as [[|]| | |], y as [[|]| | |]; simpl; intros; trivial;
    contradiction.
Qed.

Lemma neg_zero_or_nan x : zero_or_nan x -> zero_or_nan (neg x).
Proof. destruct x; simpl; trivial. Qed.

Lemma sqrt_zero_or_nan x : zero_or_nan x -> zero_or_nan (sqrt x).
Proof. destruct x; simpl; intros; trivial; contradiction. Qed.

Lemma div_zero_or_nan_nan x y :
  zero_or_nan x -> zero_or_nan y -> div x y = NAN.
Proof. destruct x, y; simpl; intros; trivial; contradiction. Qed.

(** Zero divided by anything is zero or NaN. *)
Lemma div_zero_l x y : is_zero x = true -> zero_or_nan (div x y).
Proof. destruct x, y; simpl; intros; trivial; discriminate. Qed.

Lemma is_zero_zero_or_nan x : is_zero x = true -> zero_or_nan x.
Proof. destruct x; simpl; intros; trivial; discriminate. Qed.

(** With finite operands, "zero or NaN" can only be a zero. *)
Lemma mul_zero_finite x y :
  is_zero x = true -> is_finite y = true ->
  is_zero (mul x y) = true /\ is_zero (mul y x) = true.
Proof. destruct x, y; try discriminate; split; reflexivity. Qed.

Lemma add_zero_zero x y :
  is_zero x = true -> is_zero y = true -> is_zero (add x y) = true.
Proof. destruct x as [[|]| | |], y as [[|]| | |]; try discriminate; reflexivity. Qed.

Lemma sub_zero_zero x y :
  is_zero x = true -> is_zero y = true -> is_zero (sub x y) = true.
Proof. destruct x as [[|]| | |], y as [[|]| | |]; try discriminate; reflexivity. Qed.

Lemma neg_zero x : is_zero (neg x) = is_zero x.
Proof. destruct x; reflexivity. Qed.

Lemma mul_self_zero x : is_zero x = true -> mul x x = pzero.
Proof. destruct x as [[|]| | |]; try discriminate; reflexivity. Qed.

Lemma mul_comm x y : mul x y = mul y x.
Proof.
  destruct x as [sx|sx| |sx mx ex], y as [sy|sy| |sy my ey]; simpl;
    try reflexivity; try (rewrite xorb_comm; reflexivity).
  unfold mul, SFmul. rewrite xorb_comm, Pos.mul_comm, Z.add_comm. reflexivity.
Qed.

(** A finite non-zero number divided by itself is exactly one. *)
Lemma div_diag s m e :
  div (S754_finite s m e) (S754_finite s m e) = of_Z 1.
Proof.
  assert (SFdiv_core_binary prec emax (Z.pos m) e (Z.pos m) e
          = (2 ^ 53, -53, loc_Exact)) as Hcore.
  { unfold SFdiv_core_binary.
    rewrite !Z.sub_diag.
    change (IntDef.Z.min (fexp prec emax 0) 0) with (-53).
    change (0 - -53) with 53.
    cbv beta iota zeta.
    change IntDef.Z.div_eucl with Z.div_eucl.
    rewrite Z.shiftl_mul_pow2 by lia.
    rewrite Z.mul_comm.
    pose proof (Z.div_mul (2 ^ 53) (Z.pos m)) as Hq.
    pose proof (Z.mod_mul (2 ^ 53) (Z.pos m)) as Hr.
    unfold Z.div in Hq. unfold Z.modulo in Hr.
    destruct (Z.div_eucl (2 ^ 53 * Z.pos m) (Z.pos m)) as [q r].
    rewrite Hq, Hr by lia.
    unfold new_location. destruct (Z.even (Z.pos m)); reflexivity. }
  unfold div, SFdiv. rewrite Hcore, xorb_nilpotent. reflexivity.
Qed.

(** Comparisons do not see the sign of a zero. *)
Lemma lt_zero_r x z : is_zero z = true -> lt x z = lt x pzero.
Proof. destruct z; try discriminate; intros _; destruct x; reflexivity. Qed.

Lemma lt_zero_l x z : is_zero z = true -> lt z x = lt pzero x.
Proof. destruct z; try discriminate; intros _; destruct x; reflexivity. Qed.

Lemma zero_or_nan_not_pos x : zero_or_nan x -> gt x (of_Z 0) = false.
Proof. destruct x; simpl; intros; trivial; contradiction. Qed.

Lemma zero_or_nan_cases x :
  zero_or_nan x -> is_zero x = true \/ x = NAN.
Proof. destruct x; simpl; intros; auto; contradiction. Qed.

(** *** The clipped overlap when one projection is zero

    The projection of the start of segment 1 on itself is a zero (or NaN
    when [u.u] is); then [t_start] is [0] and the overlap is not empty,
    whichever of the two projections it is. *)

Lemma overlap_from_zero_l t0 t1 :
  zero_or_nan t0 -> (t0 = NAN -> t1 = NAN) ->
  max (of_Z 0) (fst (swap_if_gt t0 t1)) = of_Z 0 /\
  gt (of_Z 0) (min (of_Z 1) (snd (swap_if_gt t0 t1))) = false.
Proof.
  intros H0 Hn. destruct (zero_or_nan_cases _ H0) as [Hz| ->].
  - unfold swap_if_gt, gt. rewrite (lt_zero_r t1 t0 Hz).
    destruct (lt t1 pzero) eqn:E; cbn [fst snd].
    + split.
      * unfold max. change (of_Z 0) with pzero.
        rewrite (le_not_lt _ _ (lt_le _ _ E)). reflexivity.
      * unfold min. rewrite (lt_zero_l (of_Z 1) t0 Hz).
        change (lt pzero (of_Z 1)) with true. cbv iota.
        rewrite (lt_zero_l _ t0 Hz). reflexivity.
    + split.
      * unfold max. rewrite (lt_zero_r _ t0 Hz). reflexivity.
      * unfold min. destruct (lt t1 (of_Z 1)); [exact E|reflexivity].
  - rewrite (Hn eq_refl). split; reflexivity.
Qed.

Lemma overlap_from_zero_r t0 t1 :
  zero_or_nan t1 -> (t1 = NAN -> t0 = NAN) ->
  max (of_Z 0) (fst (swap_if_gt t0 t1)) = of_Z 0 /\
  gt (of_Z 0) (min (of_Z 1) (snd (swap_if_gt t0 t1))) = false.
Proof.
  intros H1 Hn. destruct (zero_or_nan_cases _ H1) as [Hz| ->].
  - unfold swap_if_gt, gt. rewrite (lt_zero_l t0 t1 Hz).
    destruct (lt pzero t0) eqn:E; cbn [fst snd].
    + split.
      * unfold max. rewrite (lt_zero_r _ t1 Hz). reflexivity.
      * unfold min. destruct (lt t0 (of_Z 1)); [|reflexivity].
        apply le_not_lt, lt_le, E.
    + split.
      * unfold max. change (of_Z 0) with pzero. rewrite E. reflexivity.
      * unfold min. rewrite (lt_zero_l (of_Z 1) t1 Hz).
        change (lt pzero (of_Z 1)) with true. cbv iota.
        rewrite (lt_zero_l _ t1 Hz). reflexivity.
  - rewrite (Hn eq_refl). split; reflexivity.
Qed.

(** A zero over [a] is NaN only when [a] is a zero or NaN, and then so is
    every quotient by [a] that the source forms. *)
Lemma div_zero_nan_diag z a :
  is_zero z = true -> div z a = NAN -> div a a = NAN.
Proof. destruct z, a; try discriminate; reflexivity. Qed.

Lemma div_zero_nan_inv z a x :
  is_zero z = true -> is_zero a = false -> div z a = NAN -> div x a = NAN.
Proof. destruct z, a; try discriminate; intros _ _ _; destruct x; reflexivity. Qed.

Lemma div_self a : is_finite_nonzero a = true -> div a a = of_Z 1.
Proof. destruct a; try discriminate. intros _. apply div_diag. Qed.

(** *** The clipped overlap when one projection is one and the other is
    beyond *)

Lemma overlap_at_one_l t1 :
  gt t1 (of_Z 1) = true ->
  max (of_Z 0) (fst (swap_if_gt (of_Z 1) t1)) = of_Z 1 /\
  gt (of_Z 1) (min (of_Z 1) (snd (swap_if_gt (of_Z 1) t1))) = false.
Proof.
  intros H. unfold swap_if_gt, gt in *.
  rewrite (le_not_lt _ _ (lt_le _ _ H)). cbn [fst snd]. unfold min.
  rewrite (le_not_lt _ _ (lt_le _ _ H)). split; reflexivity.
Qed.

Lemma overlap_at_one_r t0 :
  gt t0 (of_Z 1) = true ->
  max (of_Z 0) (fst (swap_if_gt t0 (of_Z 1))) = of_Z 1 /\
  gt (of_Z 1) (min (of_Z 1) (snd (swap_if_gt t0 (of_Z 1)))) = false.
Proof.
  intros H. unfold swap_if_gt. rewrite H. cbn [fst snd]. unfold min, gt in *.
  rewrite (le_not_lt _ _ (lt_le _ _ H)). split; reflexivity.
Qed.

End DoubleFacts.

Import DoubleFacts.

(** ** Facts about vectors *)

Lemma length_finite_inv w : is_finite (length w) = true -> finite_vector w.
Proof.
  unfold length. intros H. apply sqrt_finite_inv in H.
  apply add_finite_inv in H as [H HZ]. apply add_finite_inv in H as [HX HY].
  apply mul_finite_inv in HX, HY, HZ. unfold finite_vector. tauto.
Qed.

Lemma cross_product_finite_inv this v :
  finite_vector (cross_product this v) -> finite_vector this /\ finite_vector v.
Proof.
  unfold finite_vector, cross_product; simpl. intros (HX & HY & _).
  rewrite neg_finite in HY.
  apply sub_finite_inv in HX as [H1 H2], HY as [H3 H4].
  apply mul_finite_inv in H1, H2, H3, H4. tauto.
Qed.

Lemma minus_finite_inv p q :
  finite_vector (p - q)%V -> finite_vector p /\ finite_vector q.
Proof.
  unfold finite_vector, minus; simpl. intros (HX & HY & HZ).
  apply sub_finite_inv in HX, HY, HZ. tauto.
Qed.

(** The parallel test can only succeed on segments with finite coordinates. *)
Lemma parallel_test_finite u v :
  (fabs (length (cross_product v u)) <? eps)%D = true ->
  finite_vector u /\ finite_vector v.
Proof.
  intros H. apply fabs_lt_finite, length_finite_inv in H.
  apply cross_product_finite_inv in H. tauto.
Qed.

Lemma times_nan_r w : (w * NAN)%V = NaN_vector.
Proof. unfold times, NaN_vector. rewrite !mul_nan_r. reflexivity. Qed.

Lemma plus_nan_r w : (w + NaN_vector)%V = NaN_vector.
Proof. unfold plus, NaN_vector; simpl. rewrite !add_nan_r. reflexivity. Qed.

Lemma length_nonneg w : nonneg_or_nan (length w).
Proof.
  unfold length. apply sqrt_nonneg.
  repeat apply add_nonneg; apply mul_self_nonneg.
Qed.

(** A finite point moved along a finite direction by a finite parameter has
    no NaN coordinate. *)
Lemma point_on_line_not_nan P u t :
  finite_vector P -> finite_vector u -> is_finite t = true ->
  (P + u * t)%V <> NaN_vector.
Proof.
  intros (HP & _) (Hu & _) Ht E.
  apply (f_equal X) in E. simpl in E.
  pose proof (add_finite_not_nan _ _ HP (mul_finite_not_nan _ _ Hu Ht)) as N.
  fold (add (X P) (mul (X u) t)) in E. rewrite E in N. discriminate.
Qed.

(** *** Zero vectors *)

Lemma zero_vector_origin : zero_vector origin.
Proof. repeat split. Qed.

Lemma minus_diag P : finite_vector P -> (P - P)%V = origin.
Proof.
  intros (HX & HY & HZ). unfold minus, origin.
  rewrite !sub_diag by assumption. reflexivity.
Qed.

Lemma cross_product_zero_l u w :
  zero_vector u -> zero_or_nan_vector (cross_product u w).
Proof.
  intros (HX & HY & HZ). apply is_zero_zero_or_nan in HX, HY, HZ.
  unfold cross_product; repeat split; cbn [X Y Z];
    try apply neg_zero_or_nan; apply sub_zero_or_nan;
    apply mul_zero_or_nan_l; assumption.
Qed.

Lemma cross_product_zero_r this v :
  finite_vector this -> zero_vector v -> zero_vector (cross_product this v).
Proof.
  intros (FX & FY & FZ) (HX & HY & HZ).
  unfold cross_product; repeat split; cbn [X Y Z]; rewrite ?neg_zero;
    apply sub_zero_zero;
    match goal with
    | |- is_zero (mul ?a ?b) = true => apply (mul_zero_finite b a); assumption
    end.
Qed.

Lemma length_zero w : zero_vector w -> length w = pzero.
Proof.
  intros (HX & HY & HZ). unfold length.
  rewrite !mul_self_zero by assumption. reflexivity.
Qed.

Lemma length_zero_or_nan w : zero_or_nan_vector w -> zero_or_nan (length w).
Proof.
  intros (HX & HY & HZ). unfold length.
  apply sqrt_zero_or_nan; repeat apply add_zero_or_nan;
    apply mul_zero_or_nan_l; assumption.
Qed.

(** [this.dot_product(v)] when [this] is a zero vector and [v] is finite. *)
Lemma dot_product_zero_this this v :
  zero_vector this -> finite_vector v -> is_zero (dot_product this v) = true.
Proof.
  intros (HX & HY & HZ) (FX & FY & FZ). unfold dot_product.
  repeat apply add_zero_zero;
    match goal with
    | |- is_zero (mul ?a ?b) = true => apply (mul_zero_finite b a); assumption
    end.
Qed.

(** [this.dot_product(v)] when [v] is a zero vector, [this] being anything. *)
Lemma dot_product_zero_arg this v :
  zero_vector v -> zero_or_nan (dot_product this v).
Proof.
  intros (HX & HY & HZ). apply is_zero_zero_or_nan in HX, HY, HZ.
  unfold dot_product.
  repeat apply add_zero_or_nan; apply mul_zero_or_nan_l; assumption.
Qed.

Lemma add_zero_same x z :
  is_finite x = true -> is_zero z = true -> same_number (add x z) x.
Proof.
  destruct x as [[|]|s| |s m e], z as [[|]| | |]; try discriminate;
    intros _ _; unfold same_number; simpl; auto.
Qed.

(** Moving a finite point by parameter zero along a finite direction gives
    the point back. *)
Lemma point_at_zero P u :
  finite_vector P -> finite_vector u -> same_point (P + u * of_Z 0)%V P.
Proof.
  intros (PX & PY & PZ) (UX & UY & UZ).
  unfold same_point, plus, times; cbn [X Y Z].
  repeat split; apply add_zero_same; try assumption;
    match goal with
    | |- is_zero (mul ?a ?b) = true => apply (mul_zero_finite b a)
    end; try assumption; reflexivity.
Qed.

Lemma same_point_not_nan p q :
  finite_vector q -> same_point p q -> p <> NaN_vector.
Proof.
  intros (FX & _) ([HX|[HX _]] & _) E; apply (f_equal X) in E; simpl in E.
  - rewrite <- HX, E in FX. discriminate.
  - rewrite E in HX. discriminate.
Qed.

(** ** The collinear branch in closed form *)

Section CollinearBranch.

Variables s1 s2 : Segment3D.
Hypothesis Hpar : parallel_test s1 s2 = true.
Hypothesis Hdist : (line_distance s1 s2 >? of_Z 0)%D = false.

Let sw : double * double :=
  swap_if_gt (projection s1 (start s2)) (projection s1 (end_ s2)).

Lemma Intersect_collinear :
  Intersect s1 s2 =
    let t_start := max (of_Z 0) (fst sw) in
    let t_end := min (of_Z 1) (snd sw) in
    if (t_start >? t_end)%D then NaN_vector
    else (start s1 + (end_ s1 - start s1) * t_start)%V.
Proof.
  revert Hpar Hdist. subst sw.
  unfold parallel_test, line_distance, projection, Intersect.
  intros -> ->. destruct (swap_if_gt _ _); reflexivity.
Qed.

(** The overlap starts at parameter [t] as soon as the clipped start is [t]
    and does not exceed the clipped end. *)
Lemma Intersect_collinear_at t :
  max (of_Z 0) (fst sw) = t /\ (t >? min (of_Z 1) (snd sw))%D = false ->
  Intersect s1 s2 = (start s1 + (end_ s1 - start s1) * t)%V.
Proof.
  intros [Hs He]. rewrite Intersect_collinear.
  cbv zeta. rewrite Hs, He. reflexivity.
Qed.

End CollinearBranch.

Lemma parallel_test_finite_start s1 s2 :
  parallel_test s1 s2 = true ->
  finite_vector (start s1) /\ finite_vector (end_ s1 - start s1)%V.
Proof.
  intros H. apply parallel_test_finite in H as [Hu _].
  destruct (minus_finite_inv _ _ Hu). tauto.
Qed.

(** ** The embedding against the source's own data *)

(** The literal [10e-6] is the correctly rounded quotient [1 / 100000]. *)
Lemma eps_literal : eps = (of_Z 1 / of_Z 100000)%D /\ is_double eps = true.
Proof. split; reflexivity. Qed.

(** The ten tests of [test_intersection] pass. *)
Lemma test_intersection_passes :
  forallb (fun p => test_passes (fst p) (snd p))
          (combine segments expected_results) = true.
Proof. vm_compute. reflexivity. Qed.

(** ** The non-parallel branch *)

Lemma isnan_true x : isnan x = true -> x = NAN.
Proof. destruct x; try discriminate; reflexivity. Qed.

(** Rounding to six decimals multiplies and divides by exactly [10^6]. *)
Lemma round_to_n_6 x :
  round_to_n x 6 =
    (round (x * S754_finite false 8589934592000000 (-33))
     / S754_finite false 8589934592000000 (-33))%D.
Proof. reflexivity. Qed.

(** *** [std::round] is the nearest integer, halfway cases away from zero *)

Lemma digits2_pos_iter p k :
  digits2_pos (Pos.iter xO p k) = (digits2_pos p + k)%positive.
Proof.
  induction k as [|k IH] using Pos.peano_ind.
  - simpl. lia.
  - rewrite Pos.iter_succ. simpl. rewrite IH. lia.
Qed.

Lemma Zpos_iter_xO p k : Z.pos (Pos.iter xO p k) = Z.pos p * 2 ^ Z.pos k.
Proof.
  induction k as [|k IH] using Pos.peano_ind.
  - simpl. lia.
  - rewrite Pos.iter_succ, Pos2Z.inj_xO, IH, Pos2Z.inj_succ, Z.pow_succ_r
      by lia.
    lia.
Qed.

Lemma digits2_pos_lower p : 2 ^ (Z.pos (digits2_pos p) - 1) <= Z.pos p.
Proof.
  induction p as [p IH|p IH|]; cbn [digits2_pos].
  - rewrite Pos2Z.inj_succ.
    replace (Z.succ (Z.pos (digits2_pos p)) - 1)
      with (Z.succ (Z.pos (digits2_pos p) - 1)) by lia.
    rewrite Z.pow_succ_r by lia. lia.
  - rewrite Pos2Z.inj_succ.
    replace (Z.succ (Z.pos (digits2_pos p)) - 1)
      with (Z.succ (Z.pos (digits2_pos p) - 1)) by lia.
    rewrite Z.pow_succ_r by lia. lia.
  - simpl. lia.
Qed.

Lemma digits2_pos_upper p : Z.pos p < 2 ^ Z.pos (digits2_pos p).
Proof.
  induction p as [p IH|p IH|]; cbn [digits2_pos].
  - rewrite Pos2Z.inj_succ, Z.pow_succ_r by lia. lia.
  - rewrite Pos2Z.inj_succ, Z.pow_succ_r by lia. lia.
  - simpl. lia.
Qed.

Lemma digits2_pos_le p k :
  0 <= k -> Z.pos p <= 2 ^ k -> Z.pos (digits2_pos p) <= k + 1.
Proof.
  intros Hk Hp.
  destruct (Z_le_gt_dec (Z.pos (digits2_pos p)) (k + 1)) as [H|H]; [exact H|].
  exfalso. pose proof (digits2_pos_lower p) as L.
  assert (2 ^ (k + 1) <= 2 ^ (Z.pos (digits2_pos p) - 1)) as M.
  { apply Z.pow_le_mono_r; lia. }
  rewrite Z.pow_add_r in M by lia. lia.
Qed.

(** A mantissa of 53 bits with an exponent in range is kept as it is. *)
Lemma binary_round_aux_exact s mz ez :
  Z.pos (digits2_pos mz) = 53 -> -1074 <= ez <= 971 ->
  binary_round_aux prec emax s (Z.pos mz) ez loc_Exact = S754_finite s mz ez.
Proof.
  intros Hd He. unfold binary_round_aux, shr_fexp.
  cbn [Zdigits2 shr_record_of_loc]. rewrite Hd.
  assert (fexp prec emax (53 + ez) - ez = 0) as ->.
  { unfold fexp, emin, prec, emax. change IntDef.Z.max with Z.max. lia. }
  cbn [shr shr_m loc_of_shr_record round_nearest_even Zdigits2
         shr_record_of_loc].
  rewrite Hd.
  assert (fexp prec emax (53 + ez) - ez = 0) as ->.
  { unfold fexp, emin, prec, emax. change IntDef.Z.max with Z.max. lia. }
  cbn [shr shr_m].
  assert ((ez <=? emax - prec) = true) as ->; [|reflexivity].
  unfold emax, prec. apply Z.leb_le. lia.
Qed.

Lemma cond_Zopp_mul s a b : cond_Zopp s a * b = cond_Zopp s (a * b).
Proof. destruct s; unfold cond_Zopp; change IntDef.Z.opp with Z.opp; lia. Qed.

(** An integer below [2^53] is converted exactly. *)
Lemma scaled_binary_round s p :
  Z.pos (digits2_pos p) <= 53 ->
  scaled (binary_round prec emax s p 0) = cond_Zopp s (Z.pos p) * 2 ^ 1074.
Proof.
  intros Hd. unfold binary_round.
  assert (fexp prec emax (Z.pos (digits2_pos p) + 0)
          = Z.pos (digits2_pos p) - 53) as ->.
  { unfold fexp, emin, prec, emax. change IntDef.Z.max with Z.max. lia. }
  unfold shl_align.
  destruct (Z.pos (digits2_pos p) - 53 - 0) as [|k|k] eqn:E; try lia.
  - rewrite binary_round_aux_exact by lia. unfold scaled.
    rewrite Z.add_0_l. reflexivity.
  - rewrite binary_round_aux_exact.
    + unfold scaled. rewrite Zpos_iter_xO, !cond_Zopp_mul. f_equal.
      replace (Z.pos (digits2_pos p) - 53 + 1074) with (1074 - Z.pos k)
        by lia.
      rewrite <- Z.mul_assoc, <- Z.pow_add_r by lia. do 2 f_equal. lia.
    + rewrite digits2_pos_iter. lia.
    + lia.
Qed.

Lemma scaled_binary_normalize s n :
  0 <= n <= 2 ^ 52 ->
  scaled (binary_normalize prec emax (cond_Zopp s n) 0 s)
  = cond_Zopp s n * 2 ^ 1074.
Proof.
  intros Hn. destruct n as [|p|p]; try lia.
  - destruct s; reflexivity.
  - assert (Z.pos (digits2_pos p) <= 53) as Hd.
    { apply (digits2_pos_le p 52); lia. }
    destruct s; cbn [cond_Zopp IntDef.Z.opp binary_normalize];
      rewrite scaled_binary_round by exact Hd; reflexivity.
Qed.

Lemma is_double_bounds s m e :
  is_double (S754_finite s m e) = true ->
  Z.pos (digits2_pos m) <= 53 /\ -1074 <= e.
Proof.
  unfold is_double, valid_binary, bounded, canonical_mantissa.
  intros H. apply andb_true_iff in H as [H _].
  apply Z.eqb_eq in H. revert H.
  unfold fexp, emin, prec, emax. change IntDef.Z.max with Z.max. lia.
Qed.

(** The quotient that [round] forms, bumped when the remainder is at least
    a half, is the rounded quotient. *)
Lemma half_away_quotient m d :
  0 <= m -> 0 < d ->
  (if d <=? 2 * (m mod d) then m / d + 1 else m / d) = (2 * m + d) / (2 * d).
Proof.
  intros Hm Hd.
  pose proof (Z.div_mod m d ltac:(lia)) as E.
  pose proof (Z.mod_pos_bound m d Hd) as B.
  set (q := m / d) in *. set (r := m mod d) in *.
  destruct (d <=? 2 * r) eqn:C.
  - apply Z.leb_le in C. apply Z.div_unique with (r := 2 * r - d); nia.
  - apply Z.leb_gt in C. apply Z.div_unique with (r := 2 * r + d); nia.
Qed.

Lemma round_half_away_scaled s m w u :
  0 < m -> 0 < w -> 0 < u ->
  round_half_away (cond_Zopp s (m * w)) (u * w)
  = cond_Zopp s ((2 * m + u) / (2 * u)).
Proof.
  intros Hm Hw Hu. unfold round_half_away.
  assert (Z.abs (cond_Zopp s (m * w)) = m * w) as ->.
  { destruct s; unfold cond_Zopp; change IntDef.Z.opp with Z.opp; nia. }
  replace (2 * (m * w) + u * w) with ((2 * m + u) * w) by ring.
  replace (2 * (u * w)) with (2 * u * w) by ring.
  rewrite Z.div_mul_cancel_r by lia.
  destruct s; unfold cond_Zopp; change IntDef.Z.opp with Z.opp.
  - rewrite Z.sgn_neg by nia. lia.
  - rewrite Z.sgn_pos by nia. lia.
Qed.

(** On every well-formed double, [round] is the nearest integer, halfway
    cases away from zero. *)
Lemma round_nearest_away x :
  is_double x = true ->
  scaled (round x) = round_half_away (scaled x) (2 ^ 1074) * 2 ^ 1074.
Proof.
  destruct x as [s|s| |s m e]; try reflexivity.
  intros V. destruct (is_double_bounds s m e V) as [Hd He].
  pose proof (digits2_pos_upper m) as Hm.
  assert (Z.pos m < 2 ^ 53) as Hm53.
  { eapply Z.lt_le_trans; [exact Hm|]. apply Z.pow_le_mono_r; lia. }
  unfold round. destruct (0 <=? e) eqn:E.
  - apply Z.leb_le in E. unfold scaled.
    rewrite cond_Zopp_mul.
    replace (2 ^ 1074) with (1 * 2 ^ 1074) at 1 by lia.
    rewrite Z.pow_add_r by lia.
    replace (Z.pos m * (2 ^ e * 2 ^ 1074))
      with (Z.pos m * 2 ^ e * 2 ^ 1074) by ring.
    assert (0 < 2 ^ e) as He' by (apply Z.pow_pos_nonneg; lia).
    rewrite round_half_away_scaled by (try lia; nia).
    rewrite cond_Zopp_mul. f_equal.
    replace (2 * (Z.pos m * 2 ^ e) + 1)
      with (1 + (Z.pos m * 2 ^ e) * 2) by ring.
    change (2 * 1) with 2.
    rewrite Z.div_add by lia. reflexivity.
  - apply Z.leb_gt in E. cbv zeta.
    assert (0 < 2 ^ (- e)) as Hdpos by (apply Z.pow_pos_nonneg; lia).
    assert (2 <= 2 ^ (- e)) as Hd2.
    { change 2 with (2 ^ 1) at 1. apply Z.pow_le_mono_r; lia. }
    rewrite half_away_quotient by lia.
    set (d := 2 ^ (- e)) in *.
    assert (0 <= (2 * Z.pos m + d) / (2 * d) <= 2 ^ 52) as Hn.
    { split; [apply Z.div_pos; lia|].
      apply Z.div_le_upper_bound; [lia|].
      change (2 ^ 53) with (2 * 2 ^ 52) in Hm53. nia. }
    rewrite scaled_binary_normalize by exact Hn.
    unfold scaled. rewrite !cond_Zopp_mul.
    assert (2 ^ 1074 = d * 2 ^ (e + 1074)) as ->.
    { subst d. rewrite <- Z.pow_add_r by lia. f_equal. lia. }
    assert (0 < 2 ^ (e + 1074)) as Hw by (apply Z.pow_pos_nonneg; lia).
    rewrite round_half_away_scaled by lia.
    rewrite cond_Zopp_mul. reflexivity.
Qed.

(** *** The branch, coordinate by coordinate *)

(** C1. In the non-parallel branch, [length(cross(v, u)) >= eps] with
    [u = P2 - P1] and [v = Q2 - Q1], [Intersect] computes on the coordinates
    of the four endpoints [t = round(q * 10^6) / 10^6] for
    [q = (-(d*c) + b*e) / (a*c - b*b)], and [s = (e + b*t) / c], with
    [a = u.u], [b = v.u], [c = v.v], [d = u.w0], [e = v.w0],
    [w0 = P1 - Q1]; it returns the all-NaN vector when
    [length((P1 + u*t) - (Q1 + v*s)) > eps] or [t > 1] or [t < 0] or
    [s > 1] or [s < 0], and [Pt = P1 + u*t] otherwise (third part).
    The rounding to six decimals is the one of this [t]: [round] takes a
    well-formed double to the nearest integer, halfway cases away from zero
    (first part, on the values scaled by [2^1074]), and leaves an infinity
    or NaN as it is (second part). *)
Theorem C1_non_parallel_branch
    (x1 y1 z1 x2 y2 z2 x3 y3 z3 x4 y4 z4 : double) :
  let zero := S754_zero false in
  let one := S754_finite false 4503599627370496 (-52) in
  let million := S754_finite false 8589934592000000 (-33) in
  let epsilon := S754_finite false 5902958103587057 (-69) in
  let ux := (x2 - x1)%F in
  let uy := (y2 - y1)%F in
  let uz := (z2 - z1)%F in
  let vx := (x4 - x3)%F in
  let vy := (y4 - y3)%F in
  let vz := (z4 - z3)%F in
  let wx := (x1 - x3)%F in
  let wy := (y1 - y3)%F in
  let wz := (z1 - z3)%F in
  let nx := (vy * uz - vz * uy)%F in
  let ny := (- (vx * uz - vz * ux))%F in
  let nz := (vx * uy - vy * ux)%F in
  let a := (ux * ux + uy * uy + uz * uz)%F in
  let b := (ux * vx + uy * vy + uz * vz)%F in
  let c := (vx * vx + vy * vy + vz * vz)%F in
  let d := (wx * ux + wy * uy + wz * uz)%F in
  let e := (wx * vx + wy * vy + wz * vz)%F in
  let q := ((- (d * c) + b * e) / (a * c - b * b))%F in
  let t := (round (q * million) / million)%F in
  let s := ((e + b * t) / c)%F in
  let px := (x1 + ux * t)%F in
  let py := (y1 + uy * t)%F in
  let pz := (z1 + uz * t)%F in
  let gx := (px - (x3 + vx * s))%F in
  let gy := (py - (y3 + vy * s))%F in
  let gz := (pz - (z3 + vz * s))%F in
  (forall x : double,
      is_double x = true ->
      scaled (round x) = round_half_away (scaled x) (2 ^ 1074) * 2 ^ 1074) /\
  (forall x : double, inf_or_nan x = true -> round x = x) /\
  ((epsilon <=? sqrt64 (nx * nx + ny * ny + nz * nz))%F = true ->
   Intersect (mkSegment3D (mkVector3D x1 y1 z1) (mkVector3D x2 y2 z2))
             (mkSegment3D (mkVector3D x3 y3 z3) (mkVector3D x4 y4 z4)) =
     if (sqrt64 (gx * gx + gy * gy + gz * gz) >? epsilon)%F
        || (t >? one)%F || (t <? zero)%F || (s >? one)%F || (s <? zero)%F
     then mkVector3D S754_nan S754_nan S754_nan
     else mkVector3D px py pz).
Proof.
  intros zero one million epsilon ux uy uz vx vy vz wx wy wz nx ny nz
    a b c d e q t s px py pz gx gy gz.
  split; [exact round_nearest_away|].
  split; [intros [ | | |]; try discriminate; reflexivity|].
  intros Hge.
  pose proof (ge_not_fabs_lt _ eps Hge eq_refl) as Hpar.
  unfold Intersect. cbn [start end_].
  match goal with
  | |- (if ?par then _ else _) = _ =>
      replace par with false by (symmetry; exact Hpar)
  end.
  match goal with
  | |- _ = (if ?g || ?t1 || ?t0 || ?s1 || ?s0 then ?n else ?p) =>
      transitivity (if g then n else if t1 || t0 || s1 || s0 then n else p);
      [reflexivity|destruct g; reflexivity]
  end.
Qed.

(** A result read off a statement [H] on a branch: the guard of [H] and the
    value it gives are evaluated. *)
Ltac evaluated_by H :=
  etransitivity; [apply H; vm_compute; reflexivity|vm_compute; reflexivity].

(** Four runs through the branch, and one rounding.
    - [(0,0,0) .. (3,0,0)] and [(1,-1,0) .. (1,2,0)] cross at [(1,0,0)]:
      [q = 1/3] is rounded to [t = 0.333333] and the point reported is
      [(0.999999, 0, 0)], the double [9007190247541737 * 2^-53];
    - [(0,0,0) .. (3,0,0)] and [(0,1,0) .. (2,0,0)]: [q = 2/3] is rounded
      to [0.666667], which puts [s] above 1;
    - [(0,0,0) .. (1,0,0)] and [(2,-1,0) .. (2,1,0)]: [t = 2];
    - [(0,0,0) .. (1,0,0)] and [(0,0,1) .. (0,1,1)]: the lines are 1 apart;
    - [round(2.5) = 3]. *)
Lemma C1_non_parallel_branch_witness :
  Intersect (segZ 0 0 0 3 0 0) (segZ 1 (-1) 0 1 2 0)
    = mkVector3D (S754_finite false 9007190247541737 (-53)) pzero pzero /\
  Intersect (segZ 0 0 0 3 0 0) (segZ 0 1 0 2 0 0) = NaN_vector /\
  Intersect (segZ 0 0 0 1 0 0) (segZ 2 (-1) 0 2 1 0) = NaN_vector /\
  Intersect (segZ 0 0 0 1 0 0) (segZ 0 0 1 0 1 1) = NaN_vector /\
  scaled (round (of_Z 5 / of_Z 2)%D) = 3 * 2 ^ 1074.
Proof.
  split; [|split; [|split; [|split]]].
  - pose proof (C1_non_parallel_branch
                  (of_Z 0) (of_Z 0) (of_Z 0) (of_Z 3) (of_Z 0) (of_Z 0)
                  (of_Z 1) (of_Z (-1)) (of_Z 0) (of_Z 1) (of_Z 2) (of_Z 0))
      as H.
    cbv zeta in H. destruct H as (_ & _ & H). evaluated_by H.
  - pose proof (C1_non_parallel_branch
                  (of_Z 0) (of_Z 0) (of_Z 0) (of_Z 3) (of_Z 0) (of_Z 0)
                  (of_Z 0) (of_Z 1) (of_Z 0) (of_Z 2) (of_Z 0) (of_Z 0)) as H.
    cbv zeta in H. destruct H as (_ & _ & H). evaluated_by H.
  - pose proof (C1_non_parallel_branch
                  (of_Z 0) (of_Z 0) (of_Z 0) (of_Z 1) (of_Z 0) (of_Z 0)
                  (of_Z 2) (of_Z (-1)) (of_Z 0) (of_Z 2) (of_Z 1) (of_Z 0))
      as H.
    cbv zeta in H. destruct H as (_ & _ & H). evaluated_by H.
  - pose proof (C1_non_parallel_branch
                  (of_Z 0) (of_Z 0) (of_Z 0) (of_Z 1) (of_Z 0) (of_Z 0)
                  (of_Z 0) (of_Z 0) (of_Z 1) (of_Z 0) (of_Z 1) (of_Z 1)) as H.
    cbv zeta in H. destruct H as (_ & _ & H). evaluated_by H.
  - pose proof (C1_non_parallel_branch
                  (of_Z 0) (of_Z 0) (of_Z 0) (of_Z 1) (of_Z 0) (of_Z 0)
                  (of_Z 0) (of_Z 0) (of_Z 1) (of_Z 0) (of_Z 1) (of_Z 1)) as H.
    cbv zeta in H. destruct H as (H & _).
    rewrite H by reflexivity. vm_compute. reflexivity.
Defined.

(** The non-parallel branch in terms of [param_t] and [param_s]. *)
Lemma Intersect_non_parallel s1 s2 :
  parallel_test s1 s2 = false ->
  Intersect s1 s2 =
    let t := param_t s1 s2 in
    let s := param_s s1 s2 in
    let Pt := (start s1 + (end_ s1 - start s1) * t)%V in
    let Qs := (start s2 + (end_ s2 - start s2) * s)%V in
    if (length (Pt - Qs)%V >? eps)%D || outside_unit t || outside_unit s
    then NaN_vector
    else Pt.
Proof.
  unfold parallel_test, param_s, param_t, outside_unit, Intersect. intros ->.
  cbv zeta. destruct (_ >? eps)%D; [reflexivity|]. cbn [orb].
  rewrite <- !orb_assoc. reflexivity.
Qed.

(** A NaN parameter [t] is not "outside" for the source's test, yet it gives
    the all-NaN vector all the same: [Pt = P1 + u * NaN] is that vector. *)
Remark non_parallel_nan_t s1 s2 :
  parallel_test s1 s2 = false -> isnan (param_t s1 s2) = true ->
  Intersect s1 s2 = NaN_vector.
Proof.
  intros Hp Ht. rewrite (Intersect_non_parallel s1 s2 Hp). cbv zeta.
  apply isnan_true in Ht. rewrite Ht, times_nan_r, plus_nan_r.
  destruct (_ || _); reflexivity.
Qed.

(** [round_to_n] on the parameter [2/3] of the symmetry example below, and
    [std::round] on halfway and near-halfway values. *)
Example round_to_n_two_thirds :
  round_to_n (of_Z 2 / of_Z 3)%D 6 = (of_Z 666667 / of_Z 1000000)%D.
Proof. vm_compute. reflexivity. Qed.

Example round_halfway :
  round (of_Z 5 / of_Z 2)%D = of_Z 3 /\
  round (of_Z (-5) / of_Z 2)%D = of_Z (-3) /\
  round (of_Z 7 / of_Z 3)%D = of_Z 2 /\
  round (of_Z (-1) / of_Z 3)%D = S754_zero true /\
  round (S754_finite false 9007199254740991 (-54)) = of_Z 0.
Proof. vm_compute. repeat split; reflexivity. Qed.

(** ** The parallel branch: collinear segments *)

Lemma unit_interval_finite x :
  (of_Z 0 <=? x)%D = true -> (x <=? of_Z 1)%D = true -> is_finite x = true.
Proof. destruct x as [s|[|]| |s m e]; try discriminate; reflexivity. Qed.

Lemma swap_if_gt_sorted t0 t1 :
  isnan t0 = false -> isnan t1 = false ->
  (fst (swap_if_gt t0 t1) <=? snd (swap_if_gt t0 t1))%D = true.
Proof.
  intros N0 N1. unfold swap_if_gt.
  destruct (t0 >? t1)%D eqn:E; simpl.
  - apply lt_le, E.
  - apply not_lt_le; assumption.
Qed.

(** C2, as stated, fails in two places.
    - The point reported need not be a point of overlap.  For the segment
      [(0,0,0) .. (2^-10,0,0)] and the segment [(-1,0,0) .. (1,2^-7,0)] the
      call goes through the collinear case (the parallel test passes with
      [|v x u| = 2^-17] and the distance is [0], measured from [Q1] which
      is on the x axis) and reports [(0,0,0)], which is not on segment 2
      and is farther than [eps] from its line.
    - After the swap [t0 <= t1] need not hold: with the zero-length first
      segment [(5,5,5) .. (5,5,5)] the distance [0/0] is NaN, the case is
      still the collinear one, and both projections are NaN. *)
Lemma C2_counterexample :
  (well_formed_segment short_1 && well_formed_segment slanted_2 = true /\
   parallel_test short_1 slanted_2 = true /\
   (line_distance short_1 slanted_2 >? of_Z 0)%D = false /\
   Intersect short_1 slanted_2 = vecZ 0 0 0 /\
   ~ on_segment_exact slanted_2 (Intersect short_1 slanted_2) /\
   farther_than_eps_exact slanted_2 (Intersect short_1 slanted_2)) /\
  (let s1 := segZ 5 5 5 5 5 5 in
   let s2 := segZ 0 0 0 1 0 0 in
   let sw := swap_if_gt (projection s1 (start s2)) (projection s1 (end_ s2)) in
   parallel_test s1 s2 = true /\
   (line_distance s1 s2 >? of_Z 0)%D = false /\
   (fst sw <=? snd sw)%D = false).
Proof.
  split.
  - split; [vm_compute; reflexivity|].
    split; [vm_compute; reflexivity|].
    split; [vm_compute; reflexivity|].
    split; [vm_compute; reflexivity|].
    split.
    + intros (_ & _ & H & _). vm_compute in H. discriminate.
    + vm_compute. reflexivity.
  - vm_compute. repeat split.
Qed.

(** C2, amended.  In the collinear case (parallel test passed, distance not
    greater than 0) [Intersect] projects [Q1] and [Q2] on the line of
    segment 1, [t0 = (Q1 - P1).u / u.u] and [t1 = (Q2 - P1).u / u.u], swaps
    them when [t0 > t1] (so that [t0 <= t1] whenever both are numbers),
    clips [t_start = max(0, t0)] and [t_end = min(1, t1)], returns the
    all-NaN vector if and only if [t_start > t_end], and otherwise the
    single point [P1 + u * t_start] of segment 1.  Every quantity is
    written on the coordinates of the four endpoints; [std::max(0, x)] is
    [0 < x ? x : 0] and [std::min(1, x)] is [x < 1 ? x : 1]. *)
Theorem C2_collinear_overlap
    (x1 y1 z1 x2 y2 z2 x3 y3 z3 x4 y4 z4 : double) :
  let zero := S754_zero false in
  let one := S754_finite false 4503599627370496 (-52) in
  let epsilon := S754_finite false 5902958103587057 (-69) in
  let ux := (x2 - x1)%F in
  let uy := (y2 - y1)%F in
  let uz := (z2 - z1)%F in
  let vx := (x4 - x3)%F in
  let vy := (y4 - y3)%F in
  let vz := (z4 - z3)%F in
  let wx := (x1 - x3)%F in
  let wy := (y1 - y3)%F in
  let wz := (z1 - z3)%F in
  let nx := (vy * uz - vz * uy)%F in
  let ny := (- (vx * uz - vz * ux))%F in
  let nz := (vx * uy - vy * ux)%F in
  let mx := (uy * wz - uz * wy)%F in
  let my := (- (ux * wz - uz * wx))%F in
  let mz := (ux * wy - uy * wx)%F in
  let uu := (ux * ux + uy * uy + uz * uz)%F in
  let dist := (sqrt64 (mx * mx + my * my + mz * mz) / sqrt64 uu)%F in
  let t0 := ((ux * (x3 - x1) + uy * (y3 - y1) + uz * (z3 - z1)) / uu)%F in
  let t1 := ((ux * (x4 - x1) + uy * (y4 - y1) + uz * (z4 - z1)) / uu)%F in
  let lo := if (t0 >? t1)%F then t1 else t0 in
  let hi := if (t0 >? t1)%F then t0 else t1 in
  let t_start := if (zero <? lo)%F then lo else zero in
  let t_end := if (hi <? one)%F then hi else one in
  let result :=
    Intersect (mkSegment3D (mkVector3D x1 y1 z1) (mkVector3D x2 y2 z2))
              (mkSegment3D (mkVector3D x3 y3 z3) (mkVector3D x4 y4 z4)) in
  (SFabs (sqrt64 (nx * nx + ny * ny + nz * nz)) <? epsilon)%F = true ->
  (dist >? zero)%F = false ->
  (isnan t0 = false -> isnan t1 = false -> (lo <=? hi)%F = true) /\
  (result = mkVector3D S754_nan S754_nan S754_nan
   <-> (t_start >? t_end)%F = true) /\
  ((t_start >? t_end)%F = false ->
   result = mkVector3D (x1 + ux * t_start)%F (y1 + uy * t_start)%F
                       (z1 + uz * t_start)%F).
Proof.
  intros zero one epsilon ux uy uz vx vy vz wx wy wz nx ny nz mx my mz uu
    dist t0 t1 lo hi t_start t_end result Hpar Hd.
  set (P1 := mkVector3D x1 y1 z1). set (u := mkVector3D ux uy uz).
  assert (result =
            if (t_start >? t_end)%F then NaN_vector else (P1 + u * t_start)%V)
    as HI.
  { subst result. unfold Intersect. cbn [start end_].
    match goal with
    | |- (if ?par then _ else _) = _ =>
        replace par with true by (symmetry; exact Hpar)
    end.
    match goal with
    | |- (if ?far then _ else _) = _ =>
        replace far with false by (symmetry; exact Hd)
    end.
    change (swap_if_gt _ _) with (if (t0 >? t1)%F then (t1, t0) else (t0, t1)).
    subst t_start t_end lo hi. destruct (t0 >? t1)%F; reflexivity. }
  split; [|split].
  - intros N0 N1. pose proof (swap_if_gt_sorted t0 t1 N0 N1) as H.
    unfold swap_if_gt, gt, lt in H. subst lo hi.
    destruct (t0 >? t1)%F; exact H.
  - rewrite HI. destruct (t_start >? t_end)%F eqn:E.
    + split; reflexivity.
    + split; [|discriminate]. intros Hnan. exfalso.
      destruct (parallel_test_finite u (mkVector3D vx vy vz) Hpar) as [Hu _].
      destruct (minus_finite_inv (mkVector3D x2 y2 z2) P1 Hu) as [_ HP1].
      destruct (clip_in_unit lo hi E) as [Hlo Hhi].
      exact (point_on_line_not_nan P1 u t_start HP1 Hu
               (unit_interval_finite _ Hlo Hhi) Hnan).
  - intros E. rewrite HI, E. reflexivity.
Qed.

(** Five runs through the collinear case, all against the segment
    [(0,0,0) .. (4,0,0)] of the x axis:
    - [(1,0,0) .. (3,0,0)]: [t0 = 1/4], [t1 = 3/4], the point is [(1,0,0)];
    - [(3,0,0) .. (1,0,0)]: the projections are swapped, [(1,0,0)] again;
    - [(2,0,0) .. (9,0,0)]: [t_end] is clipped to 1, the point is [(2,0,0)];
    - [(-3,0,0) .. (-1,0,0)]: [t_start = 0 > t_end = -1/4], no point;
    - [(5,0,0) .. (7,0,0)]: [t_start = 5/4 > t_end = 1], no point. *)
Lemma C2_collinear_overlap_witness :
  Intersect (segZ 0 0 0 4 0 0) (segZ 1 0 0 3 0 0) = vecZ 1 0 0 /\
  Intersect (segZ 0 0 0 4 0 0) (segZ 3 0 0 1 0 0) = vecZ 1 0 0 /\
  Intersect (segZ 0 0 0 4 0 0) (segZ 2 0 0 9 0 0) = vecZ 2 0 0 /\
  Intersect (segZ 0 0 0 4 0 0) (segZ (-3) 0 0 (-1) 0 0) = NaN_vector /\
  Intersect (segZ 0 0 0 4 0 0) (segZ 5 0 0 7 0 0) = NaN_vector.
Proof.
  split; [|split; [|split; [|split]]].
  - pose proof (C2_collinear_overlap
                  (of_Z 0) (of_Z 0) (of_Z 0) (of_Z 4) (of_Z 0) (of_Z 0)
                  (of_Z 1) (of_Z 0) (of_Z 0) (of_Z 3) (of_Z 0) (of_Z 0)) as H.
    cbv zeta in H. destruct H as (_ & _ & H); [vm_compute; reflexivity ..|].
    evaluated_by H.
  - pose proof (C2_collinear_overlap
                  (of_Z 0) (of_Z 0) (of_Z 0) (of_Z 4) (of_Z 0) (of_Z 0)
                  (of_Z 3) (of_Z 0) (of_Z 0) (of_Z 1) (of_Z 0) (of_Z 0)) as H.
    cbv zeta in H. destruct H as (_ & _ & H); [vm_compute; reflexivity ..|].
    evaluated_by H.
  - pose proof (C2_collinear_overlap
                  (of_Z 0) (of_Z 0) (of_Z 0) (of_Z 4) (of_Z 0) (of_Z 0)
                  (of_Z 2) (of_Z 0) (of_Z 0) (of_Z 9) (of_Z 0) (of_Z 0)) as H.
    cbv zeta in H. destruct H as (_ & _ & H); [vm_compute; reflexivity ..|].
    evaluated_by H.
  - pose proof (C2_collinear_overlap
                  (of_Z 0) (of_Z 0) (of_Z 0) (of_Z 4) (of_Z 0) (of_Z 0)
                  (of_Z (-3)) (of_Z 0) (of_Z 0) (of_Z (-1)) (of_Z 0) (of_Z 0))
      as H.
    cbv zeta in H. destruct H as (_ & H & _); [vm_compute; reflexivity ..|].
    apply H. vm_compute. reflexivity.
  - pose proof (C2_collinear_overlap
                  (of_Z 0) (of_Z 0) (of_Z 0) (of_Z 4) (of_Z 0) (of_Z 0)
                  (of_Z 5) (of_Z 0) (of_Z 0) (of_Z 7) (of_Z 0) (of_Z 0)) as H.
    cbv zeta in H. destruct H as (_ & H & _); [vm_compute; reflexivity ..|].
    apply H. vm_compute. reflexivity.
Defined.

(** ** The parallel branch: the distance test *)

(** C3. In the parallel branch the distance between the lines is computed
    as [length(cross(u, w0)) / length(u)], and the all-NaN vector is returned
    whenever it is strictly greater than 0: the comparison is sharp, so every
    distance that is a number other than zero, however small, is classified
    as no intersection. *)
Theorem C3_parallel_distance (s1 s2 : Segment3D) :
  let P1 := start s1 in
  let P2 := end_ s1 in
  let Q1 := start s2 in
  let Q2 := end_ s2 in
  let u := (P2 - P1)%V in
  let v := (Q2 - Q1)%V in
  let w0 := (P1 - Q1)%V in
  let dist := (length (cross_product u w0) / length u)%D in
  (fabs (length (cross_product v u)) <? eps)%D = true ->
  ((dist >? of_Z 0)%D = true -> Intersect s1 s2 = NaN_vector) /\
  (isnan dist = false -> eqb dist (of_Z 0) = false ->
   Intersect s1 s2 = NaN_vector).
Proof.
  intros P1 P2 Q1 Q2 u v w0 dist Hpar.
  assert ((dist >? of_Z 0)%D = true -> Intersect s1 s2 = NaN_vector) as H.
  { intros Hd. unfold Intersect. fold P1 P2 Q1 Q2. fold u v w0.
    rewrite Hpar. fold dist. rewrite Hd. reflexivity. }
  split; [exact H|].
  intros N Z0. apply H, nonneg_nonzero_pos; try assumption.
  apply div_nonneg; apply length_nonneg.
Qed.

(** Two parallel unit segments [2^-100] apart: the distance is far below
    [eps], yet greater than 0. *)
Lemma C3_parallel_distance_witness :
  is_double tiny = true /\ (tiny <? eps)%D = true /\
  Intersect near_parallel_1 near_parallel_2 = NaN_vector.
Proof.
  split; [reflexivity|]. split; [reflexivity|].
  apply (C3_parallel_distance near_parallel_1 near_parallel_2);
    vm_compute; reflexivity.
Defined.

(** ** Approximate equality of vectors *)

Lemma negative_le_eps x : (x <? of_Z 0)%D = true -> (x <=? eps)%D = true.
Proof.
  intros H. apply lt_le, (le_lt_trans _ (of_Z 0)); [apply lt_le, H|reflexivity].
Qed.

(** C6. [operator==] holds exactly when, on each of the three axes,
    [other.axis - this.axis <= eps], no absolute value being taken; so it
    accepts every pair whose differences are negative, however large, and it
    is not symmetric: some [v], [w] have [v == w] and [w != v]. *)
Theorem C6_approx_equality_one_sided :
  (forall this v : Vector3D,
      equals this v = true <->
      (X v - X this <=? eps)%D = true /\
      (Y v - Y this <=? eps)%D = true /\
      (Z v - Z this <=? eps)%D = true) /\
  (forall this v : Vector3D,
      (X v - X this <? of_Z 0)%D = true ->
      (Y v - Y this <? of_Z 0)%D = true ->
      (Z v - Z this <? of_Z 0)%D = true ->
      equals this v = true) /\
  (exists v w : Vector3D, equals v w = true /\ not_equals w v = true).
Proof.
  assert (forall this v : Vector3D,
      equals this v = true <->
      (X v - X this <=? eps)%D = true /\
      (Y v - Y this <=? eps)%D = true /\
      (Z v - Z this <=? eps)%D = true) as Hiff.
  { intros this v. unfold equals. rewrite !andb_true_iff. tauto. }
  split; [exact Hiff|]. split.
  - intros this v HX HY HZ. apply Hiff.
    repeat split; apply negative_le_eps; assumption.
  - exists (vecZ 0 0 0), (vecZ (-1000000) (-1000000) (-1000000)).
    split; vm_compute; reflexivity.
Qed.

(** [(0, 0, 0) == (-10^6, -10^6, -10^6)] holds, through the second part. *)
Lemma C6_approx_equality_one_sided_witness :
  equals (vecZ 0 0 0) (vecZ (-1000000) (-1000000) (-1000000)) = true.
Proof.
  apply (proj1 (proj2 C6_approx_equality_one_sided)); vm_compute; reflexivity.
Defined.

(** ** Every reported point is a point of segment 1 *)




(** ** Division by zero *)

Lemma div_by_zero x s : inf_or_nan (x / S754_zero s)%D = true.
Proof. destruct x; reflexivity. Qed.

(** ** Symmetry *)

(** C4. [Intersect(S1, S2)] and [Intersect(S2, S1)] do not always agree on
    whether an intersection exists.  The segments above meet at [(2,0,0)],
    the end of the second, which lies on the first.  The first call rounds
    [t = 2/3] to [0.666667], gets [s = 1.0000004 > 1] from it and returns
    the all-NaN vector; the second call finds [t = 1] and returns
    [(2,0,0)]. *)
Theorem C4_symmetry_fails :
  on_segment_exact sym_1 (end_ sym_2) /\
  Intersect sym_1 sym_2 = NaN_vector /\
  Intersect sym_2 sym_1 = vecZ 2 0 0 /\
  (param_s sym_1 sym_2 >? of_Z 1)%D = true /\
  param_t sym_2 sym_1 = of_Z 1.
Proof.
  split.
  - repeat split; vm_compute; try reflexivity; discriminate.
  - vm_compute. repeat split; reflexivity.
Qed.

(** ** A zero-length first segment *)

(** C5, as stated, fails: with segment 1 reduced to the finite point
    [(1, 2, 3)] and segment 2 the finite segment [very_long], the parallel
    test sees NaN, the other branch is taken and the all-NaN vector comes
    back, not the point. *)
Lemma C5_counterexample :
  finite_vector (vecZ 1 2 3) /\
  finite_vector (start very_long) /\ finite_vector (end_ very_long) /\
  is_double two_1023 = true /\
  Intersect (mkSegment3D (vecZ 1 2 3) (vecZ 1 2 3)) very_long = NaN_vector /\
  Intersect (mkSegment3D (vecZ 1 2 3) (vecZ 1 2 3)) very_long <> vecZ 1 2 3.
Proof.
  vm_compute. repeat split; try reflexivity; discriminate.
Qed.

(** C5, amended. When segment 1 is the single finite point [P] and the
    direction [Q2 - Q1] of segment 2 is finite (no infinite coordinate, no
    overflow in the subtraction), [Intersect] returns [P], wherever segment
    2 lies: the zero direction passes the parallel test, the distance is
    NaN and fails [d > 0], both projections are NaN, [max(0, NaN) = 0] and
    [min(1, NaN) = 1].  The point comes back as [P + 0], that is [P] with a
    [-0] coordinate read as [+0]. *)
Theorem C5_degenerate_first_segment (P : Vector3D) (s2 : Segment3D) :
  finite_vector P ->
  finite_vector (end_ s2 - start s2)%V ->
  Intersect (mkSegment3D P P) s2 = drop_zero_signs P /\
  same_point (Intersect (mkSegment3D P P) s2) P.
Proof.
  intros HP Hv.
  assert (Intersect (mkSegment3D P P) s2 = (P + origin * of_Z 0)%V) as HI.
  { unfold Intersect. cbn [start end_]. rewrite (minus_diag P HP).
    set (v := (end_ s2 - start s2)%V) in *.
    set (w0 := (P - start s2)%V).
    rewrite (length_zero _ (cross_product_zero_r v origin Hv zero_vector_origin)).
    change (fabs pzero <? eps)%D with true. cbv iota.
    rewrite (div_zero_or_nan_nan _ (length origin)
               (length_zero_or_nan _
                  (cross_product_zero_l origin w0 zero_vector_origin)) I).
    change (NAN >? of_Z 0)%D with false. cbv iota.
    rewrite !(fun q => div_zero_or_nan_nan _ (dot_product origin origin)
                         (dot_product_zero_arg q origin zero_vector_origin) I).
    reflexivity. }
  split.
  - rewrite HI. unfold plus, times, origin, drop_zero_signs; cbn [X Y Z].
    change (pzero * of_Z 0)%D with pzero. rewrite !add_pzero_r. reflexivity.
  - rewrite HI. apply point_at_zero; [exact HP|repeat split].
Qed.

(** The point [(5, 5, 5)] against the unit segment of the x axis, far away
    from it. *)
Lemma C5_degenerate_first_segment_witness :
  Intersect (mkSegment3D (vecZ 5 5 5) (vecZ 5 5 5)) (segZ 0 0 0 1 0 0)
  = vecZ 5 5 5.
Proof.
  destruct (C5_degenerate_first_segment (vecZ 5 5 5) (segZ 0 0 0 1 0 0))
    as [H _]; [repeat split ..|].
  rewrite H. reflexivity.
Defined.

(** ** A segment against itself *)

(** C8, as stated, fails on a non-degenerate segment with finite
    coordinates: the products of the cross product overflow, [inf - inf] is
    NaN, the parallel test fails and the all-NaN vector is returned. *)
Lemma C8_counterexample :
  start long_diagonal <> end_ long_diagonal /\
  finite_vector (start long_diagonal) /\ finite_vector (end_ long_diagonal) /\
  is_double two_600 = true /\
  parallel_test long_diagonal long_diagonal = false /\
  Intersect long_diagonal long_diagonal = NaN_vector.
Proof.
  vm_compute. repeat split; try reflexivity; discriminate.
Qed.

Lemma cross_product_self u :
  is_finite (Y u * Z u)%D = true -> is_finite (X u * Z u)%D = true ->
  is_finite (X u * Y u)%D = true ->
  zero_vector (cross_product u u).
Proof.
  intros H1 H2 H3. unfold cross_product, zero_vector; cbn [X Y Z].
  rewrite (mul_comm (Z u) (Y u)), (mul_comm (Z u) (X u)),
    (mul_comm (Y u) (X u)).
  rewrite !sub_diag by assumption. repeat split.
Qed.

(** C8, amended. For every segment [S], degenerate or not, whose direction
    [u = end - start] has finite products [u.Y*u.Z], [u.X*u.Z] and [u.X*u.Y]
    (finite coordinates, no overflow in the cross product),
    [Intersect(S, S)] goes through the collinear branch and returns the
    point of parameter 0 of [S], which is the start of [S] (up to the sign
    of a zero coordinate) and not the all-NaN vector. *)
Theorem C8_self_intersection (S : Segment3D) :
  let u := (end_ S - start S)%V in
  is_finite (Y u * Z u)%D = true ->
  is_finite (X u * Z u)%D = true ->
  is_finite (X u * Y u)%D = true ->
  parallel_test S S = true /\
  Intersect S S = (start S + u * of_Z 0)%V /\
  same_point (Intersect S S) (start S) /\
  Intersect S S <> NaN_vector.
Proof.
  intros u H1 H2 H3.
  assert (parallel_test S S = true) as Hp.
  { unfold parallel_test. fold u.
    rewrite (length_zero _ (cross_product_self u H1 H2 H3)). reflexivity. }
  destruct (parallel_test_finite_start S S Hp) as [HP Hu]. fold u in Hu.
  assert ((line_distance S S >? of_Z 0)%D = false) as Hd.
  { unfold line_distance. fold u. rewrite (minus_diag _ HP).
    rewrite (length_zero _ (cross_product_zero_r u origin Hu zero_vector_origin)).
    apply zero_or_nan_not_pos, div_zero_l. reflexivity. }
  assert (Intersect S S = (start S + u * of_Z 0)%V) as HI.
  { apply (Intersect_collinear_at S S Hp Hd (of_Z 0)).
    unfold projection. fold u. rewrite (minus_diag _ HP).
    pose proof (dot_product_zero_this origin u zero_vector_origin Hu) as Hz.
    apply overlap_from_zero_l.
    - apply div_zero_l, Hz.
    - apply div_zero_nan_diag, Hz. }
  pose proof (point_at_zero (start S) u HP Hu) as Hs. rewrite <- HI in Hs.
  repeat split; try assumption; try apply Hs.
  apply (same_point_not_nan _ (start S) HP Hs).
Qed.

(** The seventh test of [test_intersection]: the same segment twice. *)
Lemma C8_self_intersection_witness :
  Intersect (segZ 0 0 0 1 1 1) (segZ 0 0 0 1 1 1) = vecZ 0 0 0.
Proof.
  destruct (C8_self_intersection (segZ 0 0 0 1 1 1)) as (_ & H & _);
    [reflexivity ..|].
  rewrite H. reflexivity.
Defined.

(** ** Collinear segments that share an endpoint *)

(** C7.  Two exactly collinear segments that share exactly one endpoint do
    not always get that endpoint from [Intersect].
    - The segments [D .. 2D] and [4D .. 2D] are exactly collinear and have
      the endpoint [2D] and no other point in common ([4D] lies beyond the
      end of the first); the rounded cross
      product [u x w0] is not zero, the computed distance is about [3e-16],
      positive though far below [eps], and the sharp test [d > 0] gives
      the all-NaN vector.
    - The segments [(10^16,0,0) .. (1,0,0)] and [(1,0,0) .. (-10^16,0,0)]
      of the x axis share exactly [(1,0,0)]; the direction [1 - 10^16] is
      rounded to [-10^16], [t_start] is 1 and [P1 + u * 1] is [(0,0,0)],
      which [operator!=] tells from [(1,0,0)] and which is not a point of
      segment 1.
    - On the ninth test of [test_intersection], [(0,0,0) .. (1,1,1)]
      against [(1,1,1) .. (2,2,2)], the shared endpoint [(1,1,1)] is
      expected and returned. *)
Theorem C7_shared_endpoint_missed :
  (well_formed_segment touch_1 && well_formed_segment touch_2 = true /\
   collinear_exact touch_1 touch_2 /\
   share_exactly_one_endpoint touch_1 touch_2 (on_line 1) /\
   beyond_end_exact touch_1 (start touch_2) /\
   on_segment_exact touch_1 (on_line 1) /\
   on_segment_exact touch_2 (on_line 1) /\
   parallel_test touch_1 touch_2 = true /\
   (line_distance touch_1 touch_2 >? of_Z 0)%D = true /\
   (line_distance touch_1 touch_2 <? eps)%D = true /\
   Intersect touch_1 touch_2 = NaN_vector) /\
  (well_formed_segment far_1 && well_formed_segment far_2 = true /\
   collinear_exact far_1 far_2 /\
   share_exactly_one_endpoint far_1 far_2 (vecZ 1 0 0) /\
   beyond_end_exact far_1 (end_ far_2) /\
   parallel_test far_1 far_2 = true /\
   line_distance far_1 far_2 = of_Z 0 /\
   Intersect far_1 far_2 = vecZ 0 0 0 /\
   not_equals (Intersect far_1 far_2) (vecZ 1 0 0) = true /\
   ~ on_segment_exact far_1 (Intersect far_1 far_2)) /\
  Intersect (segZ 0 0 0 1 1 1) (segZ 1 1 1 2 2 2) = vecZ 1 1 1.
Proof.
  split; [|split].
  - split; [vm_compute; reflexivity|].
    split; [repeat split; vm_compute; reflexivity|].
    split.
    { split; [right; reflexivity|]. split; [right; reflexivity|].
      intros p [-> | ->] [E | E]; try reflexivity;
        vm_compute in E; discriminate. }
    split; [vm_compute; reflexivity|].
    split; [repeat split; vm_compute; try reflexivity; discriminate|].
    split; [repeat split; vm_compute; try reflexivity; discriminate|].
    repeat split; vm_compute; reflexivity.
  - split; [vm_compute; reflexivity|].
    split; [repeat split; vm_compute; reflexivity|].
    split.
    { split; [right; reflexivity|]. split; [left; reflexivity|].
      intros p [-> | ->] [E | E]; try reflexivity;
        vm_compute in E; discriminate. }
    split; [vm_compute; reflexivity|].
    split; [vm_compute; reflexivity|].
    split; [vm_compute; reflexivity|].
    split; [vm_compute; reflexivity|].
    split; [vm_compute; reflexivity|].
    intros (_ & _ & H). vm_compute in H. destruct H as [_ [_ H]].
    apply H. reflexivity.
  - vm_compute. reflexivity.
Qed.

(** * Further properties of the code *)

(** ** More facts about binary64 arithmetic *)

Module DoubleMore.

(** *** Changing the sign of a rounding *)

Lemma binary_round_aux_opp s m e l :
  binary_round_aux prec emax (negb s) m e l
  = SFopp (binary_round_aux prec emax s m e l).
Proof.
  unfold binary_round_aux.
  destruct (shr_fexp prec emax m e l) as [mrs' e'].
  destruct (shr_fexp prec emax _ e' loc_Exact) as [mrs'' e''].
  destruct (shr_m mrs'') as [|p|p]; try reflexivity.
  destruct (Z.leb _ _); reflexivity.
Qed.

Lemma binary_round_opp s m e :
  binary_round prec emax (negb s) m e = SFopp (binary_round prec emax s m e).
Proof.
  unfold binary_round. destruct (shl_align m e _) as [mz ez].
  apply binary_round_aux_opp.
Qed.

Lemma binary_normalize_cond_opp s n e :
  binary_normalize prec emax (cond_Zopp (negb s) n) e (negb s)
  = SFopp (binary_normalize prec emax (cond_Zopp s n) e s).
Proof.
  destruct n as [|p|p], s; simpl; try reflexivity;
    try apply (binary_round_opp false); apply (binary_round_opp true).
Qed.

Lemma binary_normalize_opp z e :
  z <> 0 ->
  binary_normalize prec emax (- z) e false
  = SFopp (binary_normalize prec emax z e false).
Proof.
  destruct z as [|p|p]; simpl; intros H; try contradiction (H eq_refl).
  - apply (binary_round_opp false).
  - apply (binary_round_opp true).
Qed.

Lemma mul_neg_l x y : mul (neg x) y = neg (mul x y).
Proof.
  destruct x as [sx|sx| |sx mx ex], y as [sy|sy| |sy my ey]; simpl;
    try reflexivity; try (destruct sx, sy; reflexivity).
  unfold mul, SFmul. rewrite <- negb_xorb_l. apply binary_round_aux_opp.
Qed.

Lemma div_neg_l x y : div (neg x) y = neg (div x y).
Proof.
  destruct x as [sx|sx| |sx mx ex], y as [sy|sy| |sy my ey]; simpl;
    try reflexivity; try (destruct sx, sy; reflexivity).
  unfold div, SFdiv.
  destruct (SFdiv_core_binary prec emax (Z.pos mx) ex (Z.pos my) ey)
    as [[mz ez] lz].
  rewrite <- negb_xorb_l. apply binary_round_aux_opp.
Qed.

Lemma round_neg x : round (neg x) = neg (round x).
Proof.
  destruct x as [s|s| |s m e]; try reflexivity.
  unfold round, neg, SFopp. destruct (0 <=? e); [reflexivity|].
  cbv zeta. apply binary_normalize_cond_opp.
Qed.

(** *** Subtraction the other way round *)

Lemma sub_antisym x y : opposite (sub y x) (sub x y).
Proof.
  unfold opposite, same_number.
  destruct x as [sx|sx| |sx mx ex], y as [sy|sy| |sy my ey];
    try (left; reflexivity);
    try (destruct sx, sy; simpl; auto; fail);
    try (destruct sx; simpl; auto; fail);
    try (destruct sy; simpl; auto; fail).
  unfold sub, SFsub. change IntDef.Z.min with Z.min.
  rewrite (Z.min_comm ey ex).
  set (A := cond_Zopp sx (Z.pos (fst (shl_align mx ex (Z.min ex ey))))).
  set (B := cond_Zopp sy (Z.pos (fst (shl_align my ey (Z.min ex ey))))).
  replace (B - A) with (- (A - B)) by lia.
  destruct (Z.eq_dec (A - B) 0) as [E|E].
  - rewrite E. right. split; reflexivity.
  - left. apply binary_normalize_opp, E.
Qed.

(** Opposite numbers have the same square. *)
Lemma opposite_square x y : opposite x y -> mul x x = mul y y.
Proof.
  intros [->|[Hx Hy]].
  - destruct y as [s|s| |s m e]; simpl; try reflexivity;
      destruct s; reflexivity.
  - destruct x, y; try discriminate. simpl. rewrite !xorb_nilpotent.
    reflexivity.
Qed.

Lemma opposite_neg x y : opposite x y -> opposite (neg x) (neg y).
Proof.
  unfold opposite, same_number. intros [->|[Hx Hy]]; [left; reflexivity|].
  right. destruct x, y; try discriminate; split; reflexivity.
Qed.

(** *** NaN is absorbing, the other cases *)

Lemma mul_nan_l x : mul NAN x = NAN.
Proof. reflexivity. Qed.

Lemma add_nan_l x : add NAN x = NAN.
Proof. reflexivity. Qed.

Lemma sub_nan_l x : sub NAN x = NAN.
Proof. reflexivity. Qed.

Lemma sub_nan_r x : sub x NAN = NAN.
Proof. destruct x; reflexivity. Qed.

Lemma div_nan_r x : div x NAN = NAN.
Proof. destruct x; reflexivity. Qed.

Lemma le_nan_l x : le NAN x = false.
Proof. reflexivity. Qed.

(** *** Signs of sums of squares and of roots, NaN excluded *)

Lemma mul_self_sign x : isnan x = false -> has_sign false (mul x x).
Proof.
  destruct x as [s|s| |s m e]; simpl; try discriminate; intros _;
    try apply xorb_nilpotent.
  rewrite xorb_nilpotent. apply binary_round_aux_sign. lia.
Qed.

Lemma add_sign_false x y :
  has_sign false x -> has_sign false y -> has_sign false (add x y).
Proof.
  destruct x as [sx|sx| |sx mx ex], y as [sy|sy| |sy my ey]; simpl;
    intros Hx Hy; subst; try contradiction; try reflexivity.
  apply binary_round_sign.
Qed.

Lemma sqrt_sign_false x : has_sign false x -> has_sign false (sqrt x).
Proof.
  destruct x as [s|s| |s m e]; simpl; intros Hx; subst; try contradiction;
    try reflexivity.
  unfold sqrt, SFsqrt, SFsqrt_core_binary.
  change IntDef.Z.sqrtrem with Z.sqrtrem.
  match goal with
  | |- context [Z.sqrtrem ?n] =>
      assert (0 <= n) as Hn;
      [|pose proof (Z.sqrtrem_spec n Hn) as Hs;
        destruct (Z.sqrtrem n) as [q r]]
  end.
  - destruct (e - 2 * _) as [|p|p]; try lia.
    rewrite Z.shiftl_mul_pow2 by lia. apply Z.mul_nonneg_nonneg; lia.
  - apply binary_round_aux_sign. lia.
Qed.

Lemma sign_false_ge_0 x : has_sign false x -> le (of_Z 0) x = true.
Proof. destruct x; simpl; intros H; subst; try contradiction; reflexivity. Qed.

(** *** What an infinite or NaN operand does to sums and products *)

Lemma not_finite_inf_or_nan x : is_finite x = false -> inf_or_nan x = true.
Proof. destruct x; try discriminate; reflexivity. Qed.

Lemma mul_inf_or_nan_l x y : inf_or_nan x = true -> inf_or_nan (mul x y) = true.
Proof. destruct x, y; try discriminate; reflexivity. Qed.

Lemma mul_inf_or_nan_r x y : inf_or_nan y = true -> inf_or_nan (mul x y) = true.
Proof. destruct x, y; try discriminate; reflexivity. Qed.

Lemma add_inf_or_nan_l x y : inf_or_nan x = true -> inf_or_nan (add x y) = true.
Proof.
  destruct x as [|[|]| |], y as [|[|]| |]; try discriminate; reflexivity.
Qed.

Lemma add_inf_or_nan_r x y : inf_or_nan y = true -> inf_or_nan (add x y) = true.
Proof.
  destruct x as [|[|]| |], y as [|[|]| |]; try discriminate; reflexivity.
Qed.

Lemma mul_self_pinf_or_nan x : inf_or_nan x = true -> pinf_or_nan (mul x x).
Proof. destruct x as [|[|]| |]; try discriminate; intros _; exact I. Qed.

Lemma add_pinf_or_nan_l x y :
  pinf_or_nan x -> nonneg_or_nan y -> pinf_or_nan (add x y).
Proof.
  destruct x as [|[|]| |], y as [|[|]| |[|]]; simpl; intros Hx Hy;
    try contradiction; try discriminate; exact I.
Qed.

Lemma add_pinf_or_nan_r x y :
  nonneg_or_nan x -> pinf_or_nan y -> pinf_or_nan (add x y).
Proof.
  destruct x as [|[|]| |[|]], y as [|[|]| |]; simpl; intros Hx Hy;
    try contradiction; try discriminate; exact I.
Qed.

Lemma mul_pinf_or_nan_l x y :
  pinf_or_nan x -> nonneg_or_nan y -> pinf_or_nan (mul x y).
Proof.
  destruct x as [|[|]| |], y as [|[|]| |[|]]; simpl; intros Hx Hy;
    try contradiction; try discriminate; exact I.
Qed.

Lemma mul_pinf_or_nan_r x y :
  nonneg_or_nan x -> pinf_or_nan y -> pinf_or_nan (mul x y).
Proof.
  destruct x as [|[|]| |[|]], y as [|[|]| |]; simpl; intros Hx Hy;
    try contradiction; try discriminate; exact I.
Qed.

Lemma sub_pinf_or_nan x y : pinf_or_nan x -> pinf_or_nan y -> sub x y = NAN.
Proof.
  destruct x as [|[|]| |], y as [|[|]| |]; simpl; intros Hx Hy;
    try contradiction; reflexivity.
Qed.

(** *** Sums the other way round, and opposite operands *)

Lemma add_comm x y : add x y = add y x.
Proof.
  destruct x as [sx|sx| |sx mx ex], y as [sy|sy| |sy my ey];
    try reflexivity; try (destruct sx, sy; reflexivity).
  unfold add, SFadd. change IntDef.Z.min with Z.min.
  rewrite (Z.min_comm ey ex), Z.add_comm. reflexivity.
Qed.

Lemma cond_Zopp_negb s z : cond_Zopp (negb s) z = - cond_Zopp s z.
Proof. destruct s; simpl; lia. Qed.

Lemma sub_neg_neg x y : opposite (sub (neg x) (neg y)) (sub x y).
Proof.
  unfold opposite, same_number.
  destruct x as [sx|sx| |sx mx ex], y as [sy|sy| |sy my ey];
    try (left; reflexivity);
    try (destruct sx, sy; simpl; auto; fail);
    try (destruct sx; simpl; auto; fail);
    try (destruct sy; simpl; auto; fail).
  unfold sub, neg, SFsub, SFopp. rewrite !cond_Zopp_negb.
  set (A := cond_Zopp sx _). set (B := cond_Zopp sy _).
  replace (- A - - B) with (- (A - B)) by lia.
  destruct (Z.eq_dec (A - B) 0) as [E|E].
  - rewrite E. right. split; reflexivity.
  - left. apply binary_normalize_opp, E.
Qed.

Lemma opposite_sub a b a' b' :
  opposite a b -> opposite a' b' -> opposite (sub a a') (sub b b').
Proof.
  intros [->|[Ha Hb]] [->|[Ha' Hb']].
  - apply sub_neg_neg.
  - unfold opposite, same_number.
    destruct a' as [[|]| | |], b' as [[|]| | |]; try discriminate;
      destruct b as [[|]|[|]| |[|]]; simpl; auto.
  - unfold opposite, same_number.
    destruct a as [[|]| | |], b as [[|]| | |]; try discriminate;
      destruct b' as [[|]|[|]| |[|]]; simpl; auto.
  - unfold opposite, same_number.
    destruct a as [[|]| | |], b as [[|]| | |]; try discriminate;
      destruct a' as [[|]| | |], b' as [[|]| | |]; try discriminate;
      simpl; auto.
Qed.

Lemma opposite_mul_l a b c : opposite a b -> opposite (mul a c) (mul b c).
Proof.
  intros [->|[Ha Hb]].
  - left. apply mul_neg_l.
  - unfold opposite, same_number.
    destruct a, b; try discriminate; destruct c as [[|]|[|]| |[|]];
      simpl; auto.
Qed.

Lemma opposite_mul_r a b c : opposite a b -> opposite (mul c a) (mul c b).
Proof.
  intros H. rewrite (mul_comm c a), (mul_comm c b).
  apply opposite_mul_l, H.
Qed.

(** *** A number minus itself *)

Lemma sub_self_le_eps x : le (sub x x) eps = is_finite x.
Proof.
  destruct x as [[|]|[|]| |s m e]; try reflexivity.
  rewrite (sub_diag (S754_finite s m e) eq_refl). reflexivity.
Qed.

End DoubleMore.

Import DoubleMore.

(** ** Products of vectors *)

(** X1. The dot product is commutative, exactly: [u.dot_product(v)] and
    [v.dot_product(u)] are the same double, rounding, infinities and NaN
    included. *)
Theorem X1_dot_product_comm (u v : Vector3D) :
  dot_product u v = dot_product v u.
Proof.
  unfold dot_product.
  rewrite (mul_comm (X v)), (mul_comm (Y v)), (mul_comm (Z v)). reflexivity.
Qed.

Lemma cross_product_opposite u v :
  opposite (X (cross_product v u)) (X (cross_product u v)) /\
  opposite (Y (cross_product v u)) (Y (cross_product u v)) /\
  opposite (Z (cross_product v u)) (Z (cross_product u v)).
Proof.
  unfold cross_product; cbn [X Y Z].
  rewrite (mul_comm (Y v) (Z u)), (mul_comm (Z v) (Y u)),
    (mul_comm (X v) (Z u)), (mul_comm (Z v) (X u)),
    (mul_comm (X v) (Y u)), (mul_comm (Y v) (X u)).
  repeat split; try apply opposite_neg; apply sub_antisym.
Qed.

(** X2. The cross product is anti-commutative up to the sign of zeros: each
    coordinate of [v.cross_product(u)] is the opposite of the same
    coordinate of [u.cross_product(v)], or both are zeros; in particular one
    has a NaN or infinite coordinate exactly where the other has. *)
Theorem X2_cross_product_anticomm (u v : Vector3D) :
  (opposite (X (cross_product v u)) (X (cross_product u v)) /\
   opposite (Y (cross_product v u)) (Y (cross_product u v)) /\
   opposite (Z (cross_product v u)) (Z (cross_product u v))) /\
  is_nan (cross_product v u) = is_nan (cross_product u v).
Proof.
  pose proof (cross_product_opposite u v) as (HX & HY & HZ).
  split; [repeat split; assumption|].
  unfold is_nan.
  assert (forall x y, opposite x y -> isnan x = isnan y) as Hn.
  { intros x y [->|[Hx Hy]]; destruct y; try reflexivity;
      destruct x; try discriminate; reflexivity. }
  rewrite (Hn _ _ HX), (Hn _ _ HY), (Hn _ _ HZ). reflexivity.
Qed.

Lemma length_cross_product_comm u v :
  length (cross_product v u) = length (cross_product u v).
Proof.
  pose proof (cross_product_opposite u v) as (HX & HY & HZ).
  unfold length.
  rewrite (opposite_square _ _ HX), (opposite_square _ _ HY),
    (opposite_square _ _ HZ). reflexivity.
Qed.

(** X3. The parallel test of [Intersect] does not depend on the order of
    the two segments: [Intersect(S1, S2)] and [Intersect(S2, S1)] always
    go through the same branch (parallel or not), the length of
    the cross product of the directions being the same double both ways. *)
Theorem X3_parallel_test_sym (s1 s2 : Segment3D) :
  length (cross_product (end_ s2 - start s2)%V (end_ s1 - start s1)%V)
  = length (cross_product (end_ s1 - start s1)%V (end_ s2 - start s2)%V) /\
  parallel_test s1 s2 = parallel_test s2 s1.
Proof.
  split; [apply length_cross_product_comm|].
  unfold parallel_test. cbv zeta.
  rewrite length_cross_product_comm. reflexivity.
Qed.

(** ** Length, NaN and equality of vectors *)

Lemma is_nan_false w :
  is_nan w = false ->
  isnan (X w) = false /\ isnan (Y w) = false /\ isnan (Z w) = false.
Proof.
  unfold is_nan.
  destruct (isnan (X w)), (isnan (Y w)), (isnan (Z w)); simpl;
    try discriminate; auto.
Qed.

Lemma length_sign w : is_nan w = false -> has_sign false (length w).
Proof.
  intros H. apply is_nan_false in H as (HX & HY & HZ).
  unfold length. apply sqrt_sign_false.
  repeat apply add_sign_false; apply mul_self_sign; assumption.
Qed.

Lemma length_nan w : is_nan w = true -> length w = NAN.
Proof.
  unfold is_nan, length.
  destruct (isnan (X w)) eqn:HX; [apply isnan_true in HX; rewrite HX|].
  { intros _. reflexivity. }
  destruct (isnan (Y w)) eqn:HY; [apply isnan_true in HY; rewrite HY|].
  { intros _. cbn [mul SFmul]. rewrite add_nan_r. reflexivity. }
  destruct (isnan (Z w)) eqn:HZ; [apply isnan_true in HZ; rewrite HZ|].
  { intros _. cbn [mul SFmul]. rewrite add_nan_r. reflexivity. }
  discriminate.
Qed.

(** X4. [length()] is NaN exactly when [is_nan()] holds, that is when some
    coordinate is NaN; otherwise it is a number greater than or equal to 0
    (possibly [+inf]), never negative. *)
Theorem X4_length_nan_or_nonneg (w : Vector3D) :
  isnan (length w) = is_nan w /\
  (is_nan w = false -> (of_Z 0 <=? length w)%D = true).
Proof.
  split.
  - destruct (is_nan w) eqn:E.
    + rewrite (length_nan w E). reflexivity.
    + apply (has_sign_not_nan false), length_sign, E.
  - intros E. apply sign_false_ge_0, length_sign, E.
Qed.

(** The vector [(3, 4, 0)] has no NaN coordinate; its length is 5. *)
Lemma X4_length_nan_or_nonneg_witness :
  (of_Z 0 <=? length (vecZ 3 4 0))%D = true /\ length (vecZ 3 4 0) = of_Z 5.
Proof.
  split; [|reflexivity].
  apply (proj2 (X4_length_nan_or_nonneg (vecZ 3 4 0))). reflexivity.
Defined.

(** X5. [operator==] is reflexive exactly on the vectors with finite
    coordinates: [v == v] holds if and only if no coordinate of [v] is NaN
    or infinite ([inf - inf] is NaN, and NaN compares false). *)
Theorem X5_equals_refl_iff_finite (v : Vector3D) :
  equals v v = true <-> finite_vector v.
Proof.
  unfold equals, finite_vector. rewrite !sub_self_le_eps, !andb_true_iff.
  tauto.
Qed.

(** ** Non-finite input *)

Lemma finite_vector_dec w :
  finite_vector w \/
  (is_finite (X w) = false \/ is_finite (Y w) = false \/ is_finite (Z w) = false).
Proof.
  unfold finite_vector.
  destruct (is_finite (X w)), (is_finite (Y w)), (is_finite (Z w)); auto.
Qed.

Lemma dot_product_self_nonneg u : nonneg_or_nan (dot_product u u).
Proof. unfold dot_product. repeat apply add_nonneg; apply mul_self_nonneg. Qed.

(** The square of the length of a vector with an infinite or NaN coordinate
    is [+inf] or NaN. *)
Lemma dot_product_self_not_finite u :
  is_finite (X u) = false \/ is_finite (Y u) = false \/ is_finite (Z u) = false ->
  pinf_or_nan (dot_product u u).
Proof.
  unfold dot_product.
  intros [H|[H|H]]; apply not_finite_inf_or_nan, mul_self_pinf_or_nan in H.
  - repeat apply add_pinf_or_nan_l; try apply mul_self_nonneg. exact H.
  - apply add_pinf_or_nan_l; [|apply mul_self_nonneg].
    apply add_pinf_or_nan_r; [apply mul_self_nonneg|exact H].
  - apply add_pinf_or_nan_r; [|exact H].
    apply add_nonneg; apply mul_self_nonneg.
Qed.

(** A dot product with such a vector, on either side, is infinite or NaN. *)
Lemma dot_product_not_finite_arg this v :
  is_finite (X v) = false \/ is_finite (Y v) = false \/ is_finite (Z v) = false ->
  inf_or_nan (dot_product this v) = true.
Proof.
  unfold dot_product. intros [H|[H|H]]; apply not_finite_inf_or_nan in H.
  - do 2 apply add_inf_or_nan_l. apply mul_inf_or_nan_l, H.
  - apply add_inf_or_nan_l, add_inf_or_nan_r, mul_inf_or_nan_l, H.
  - apply add_inf_or_nan_r, mul_inf_or_nan_l, H.
Qed.

Lemma dot_product_not_finite_this this v :
  is_finite (X this) = false \/ is_finite (Y this) = false
  \/ is_finite (Z this) = false ->
  inf_or_nan (dot_product this v) = true.
Proof.
  unfold dot_product. intros [H|[H|H]]; apply not_finite_inf_or_nan in H.
  - do 2 apply add_inf_or_nan_l. apply mul_inf_or_nan_r, H.
  - apply add_inf_or_nan_l, add_inf_or_nan_r, mul_inf_or_nan_r, H.
  - apply add_inf_or_nan_r, mul_inf_or_nan_r, H.
Qed.

(** With a direction that is not finite, the denominator [a*c - b*b] is
    [inf - inf] or worse, and the parameter [t] is NaN. *)
Lemma param_t_not_finite s1 s2 :
  ~ (finite_vector (end_ s1 - start s1)%V /\
     finite_vector (end_ s2 - start s2)%V) ->
  param_t s1 s2 = NAN.
Proof.
  intros H. unfold param_t. cbv zeta.
  set (u := (end_ s1 - start s1)%V) in *.
  set (v := (end_ s2 - start s2)%V) in *.
  assert ((dot_product u u * dot_product v v
           - dot_product v u * dot_product v u)%D = NAN) as ->.
  { apply sub_pinf_or_nan.
    - destruct (finite_vector_dec u) as [Fu|Nu].
      + destruct (finite_vector_dec v) as [Fv|Nv]; [tauto|].
        apply mul_pinf_or_nan_r;
          [apply dot_product_self_nonneg|apply dot_product_self_not_finite, Nv].
      + apply mul_pinf_or_nan_l;
          [apply dot_product_self_not_finite, Nu|apply dot_product_self_nonneg].
    - apply mul_self_pinf_or_nan.
      destruct (finite_vector_dec u) as [Fu|Nu].
      + destruct (finite_vector_dec v) as [Fv|Nv]; [tauto|].
        apply dot_product_not_finite_this, Nv.
      + apply dot_product_not_finite_arg, Nu. }
  rewrite div_nan_r. reflexivity.
Qed.

Lemma not_finite_direction_sentinel s1 s2 :
  ~ (finite_vector (end_ s1 - start s1)%V /\
     finite_vector (end_ s2 - start s2)%V) ->
  Intersect s1 s2 = NaN_vector.
Proof.
  intros H. apply non_parallel_nan_t.
  - destruct (parallel_test s1 s2) eqn:E; [|reflexivity].
    exfalso. apply H. apply (parallel_test_finite _ _ E).
  - rewrite (param_t_not_finite s1 s2 H). reflexivity.
Qed.

(** X6. [Intersect] reports a point only on finite data: when the result is
    not the all-NaN vector, the four endpoints have finite coordinates and
    so have the two directions [P2 - P1] and [Q2 - Q1].  A NaN or infinite
    coordinate anywhere, or an overflow in a direction, gives the all-NaN
    vector. *)
Theorem X6_point_needs_finite_input (s1 s2 : Segment3D) :
  Intersect s1 s2 <> NaN_vector ->
  finite_segment s1 /\ finite_segment s2 /\
  finite_vector (end_ s1 - start s1)%V /\ finite_vector (end_ s2 - start s2)%V.
Proof.
  intros H.
  destruct (finite_vector_dec (end_ s1 - start s1)%V) as [Fu|Nu].
  - destruct (finite_vector_dec (end_ s2 - start s2)%V) as [Fv|Nv].
    + destruct (minus_finite_inv _ _ Fu), (minus_finite_inv _ _ Fv).
      unfold finite_segment. tauto.
    + contradiction H. apply not_finite_direction_sentinel.
      unfold finite_vector. intros [_ (A & B & C)].
      rewrite A, B, C in Nv. destruct Nv as [N|[N|N]]; discriminate.
  - contradiction H. apply not_finite_direction_sentinel.
    unfold finite_vector. intros [(A & B & C) _].
    rewrite A, B, C in Nu. destruct Nu as [N|[N|N]]; discriminate.
Qed.

(** The first test of [test_intersection] reports a point. *)
Lemma X6_point_needs_finite_input_witness :
  finite_segment (segZ 1 0 0 (-1) 0 0) /\ finite_segment (segZ 0 1 0 0 (-1) 0).
Proof.
  destruct (X6_point_needs_finite_input (segZ 1 0 0 (-1) 0 0)
              (segZ 0 1 0 0 (-1) 0)) as (H1 & H2 & _).
  - vm_compute. discriminate.
  - split; assumption.
Defined.

(** ** The sentinel and [is_nan] *)

Lemma NaN_vector_dec (r : Vector3D) : r = NaN_vector \/ r <> NaN_vector.
Proof.
  destruct r as [x y z].
  destruct x; try (right; discriminate);
    destruct y; try (right; discriminate);
    destruct z; try (right; discriminate).
  left. reflexivity.
Qed.

(** A reported point is [P1 + u * t] for a finite parameter [t]. *)
Lemma Intersect_finite_param s1 s2 :
  Intersect s1 s2 <> NaN_vector ->
  exists t : double,
    Intersect s1 s2 = (start s1 + (end_ s1 - start s1) * t)%V /\
    is_finite t = true.
Proof.
  intros H. destruct (parallel_test s1 s2) eqn:Hp.
  - destruct (line_distance s1 s2 >? of_Z 0)%D eqn:Hd.
    + contradiction H. revert Hp Hd.
      unfold parallel_test, line_distance, Intersect. intros -> ->.
      reflexivity.
    + rewrite (Intersect_collinear s1 s2 Hp Hd) in *. cbv zeta in *.
      destruct (_ >? _)%D eqn:E; [contradiction H; reflexivity|].
      eexists. split; [reflexivity|].
      destruct (clip_in_unit _ _ E) as [Hlo Hhi].
      apply (unit_interval_finite _ Hlo Hhi).
  - rewrite (Intersect_non_parallel s1 s2 Hp) in *. cbv zeta in *.
    destruct (_ >? eps)%D; [contradiction H; reflexivity|].
    unfold outside_unit in *.
    destruct (param_t s1 s2 >? of_Z 1)%D eqn:E1;
      [contradiction H; reflexivity|].
    destruct (param_t s1 s2 <? of_Z 0)%D eqn:E0;
      [contradiction H; reflexivity|].
    destruct (_ || _); [contradiction H; reflexivity|].
    cbn [orb] in H. exists (param_t s1 s2). split; [reflexivity|].
    destruct (isnan (param_t s1 s2)) eqn:N.
    + exfalso. apply H.
      rewrite (isnan_true _ N), times_nan_r, plus_nan_r. reflexivity.
    + apply unit_interval_finite; apply not_lt_le; try assumption;
        reflexivity.
Qed.

(** X7. The result of [Intersect] is the all-NaN vector or has no NaN
    coordinate at all: [is_nan()] holds of the result exactly when it is the
    "no intersection" value, for every input. *)
Theorem X7_is_nan_iff_sentinel (s1 s2 : Segment3D) :
  is_nan (Intersect s1 s2) = true <-> Intersect s1 s2 = NaN_vector.
Proof.
  split; [|intros ->; reflexivity].
  intros Hn. destruct (NaN_vector_dec (Intersect s1 s2)) as [E|E]; [exact E|].
  exfalso.
  destruct (Intersect_finite_param s1 s2 E) as (t & Ht & Ft).
  destruct (finite_vector_dec (end_ s1 - start s1)%V) as [Fu|Nu].
  - destruct (minus_finite_inv _ _ Fu) as [_ (PX & PY & PZ)].
    destruct Fu as (UX & UY & UZ).
    rewrite Ht in Hn. unfold is_nan, plus, times in Hn; cbn [X Y Z] in Hn.
    rewrite !add_finite_not_nan in Hn;
      try assumption; try (apply mul_finite_not_nan; assumption).
    discriminate.
  - apply E, not_finite_direction_sentinel.
    unfold finite_vector. intros [(A & B & C) _].
    rewrite A, B, C in Nu. destruct Nu as [N|[N|N]]; discriminate.
Qed.

(** ** Rounding to [n] decimals *)

(** X8. [round_to_n] is an odd function: rounding [-x] to [n] decimals
    gives exactly the opposite of rounding [x], for every double [x] (NaN,
    infinities and both zeros included) and every [n]; [std::round] breaks
    ties away from zero on both sides. *)
Theorem X8_round_to_n_odd (x : double) (n : nat) :
  round_to_n (- x)%D n = (- round_to_n x n)%D.
Proof.
  unfold round_to_n. cbv zeta.
  rewrite mul_neg_l, round_neg, div_neg_l. reflexivity.
Qed.

(** ** The test driver *)

Lemma test_step_counts ss e p f :
  (fst (test_step ss e (p, f)) + snd (test_step ss e (p, f)) = S (p + f))%nat.
Proof.
  unfold test_step.
  destruct (is_nan _ && is_nan e); [simpl; lia|].
  destruct (not_equals _ e); simpl; lia.
Qed.

(** X9. The loop of [test_intersection] counts every test exactly once, as
    passed or as failed: it is defined as soon as [expected_results] has an
    entry for each index it reads, and then the two counters have grown by
    the number of tests together.  On the data of the source it ends with
    10 passed and 0 failed. *)
Theorem X9_test_loop_counts (segs : list (Segment3D * Segment3D))
    (expected : list Vector3D) (i : nat) (counters : nat * nat) :
  (i + List.length segs <= List.length expected)%nat ->
  exists passed failed : nat,
    test_loop segs expected i counters = Some (passed, failed) /\
    (passed + failed = fst counters + snd counters + List.length segs)%nat.
Proof.
  revert i counters.
  induction segs as [|ss rest IH]; intros i [p f] Hlen; simpl in *.
  - exists p, f. split; [reflexivity|lia].
  - destruct (nth_error expected i) as [e|] eqn:E.
    + destruct (IH (S i) (test_step ss e (p, f))) as (p' & f' & H1 & H2);
        [lia|].
      exists p', f'. split; [exact H1|].
      rewrite H2, test_step_counts. lia.
    + apply nth_error_None in E. lia.
Qed.

Lemma X9_test_loop_counts_witness :
  test_intersection = Some (10%nat, 0%nat) /\
  exists passed failed : nat,
    test_intersection = Some (passed, failed) /\ (passed + failed = 10)%nat.
Proof.
  split; [vm_compute; reflexivity|].
  apply (X9_test_loop_counts segments expected_results 0 (0%nat, 0%nat)).
  simpl. lia.
Defined.

(** [operator==] never holds of a vector with a NaN coordinate, on either
    side. *)
Lemma equals_no_nan this v :
  equals this v = true -> is_nan this = false /\ is_nan v = false.
Proof.
  unfold equals, is_nan. rewrite !andb_true_iff. intros [[HX HY] HZ].
  assert (forall a b, (a - b <=? eps)%D = true ->
                      isnan a = false /\ isnan b = false) as Hn.
  { intros a b H. destruct a, b; try discriminate; split; reflexivity. }
  destruct (Hn _ _ HX) as [-> ->], (Hn _ _ HY) as [-> ->],
    (Hn _ _ HZ) as [-> ->].
  split; reflexivity.
Qed.

(** X10. The test driver never confuses "no intersection" with a point:
    when exactly one of the result and the expected vector has a NaN
    coordinate, the test is counted as failed. *)
Theorem X10_test_nan_mismatch_fails (ss : Segment3D * Segment3D)
    (expected : Vector3D) (passed failed : nat) :
  is_nan (Intersect (fst ss) (snd ss)) <> is_nan expected ->
  test_step ss expected (passed, failed) = (passed, S failed).
Proof.
  intros H. unfold test_step, not_equals.
  destruct (equals (Intersect (fst ss) (snd ss)) expected) eqn:E.
  - apply equals_no_nan in E as [E1 E2]. rewrite E1, E2 in H.
    contradiction H. reflexivity.
  - destruct (is_nan (Intersect (fst ss) (snd ss))), (is_nan expected);
      try reflexivity; contradiction H; reflexivity.
Qed.

(** The fourth test (no intersection) against an expected point fails. *)
Lemma X10_test_nan_mismatch_fails_witness :
  test_step (segZ 1 0 2 (-1) 0 2, segZ 0 1 0 0 (-1) 0) (vecZ 0 0 0)
            (3%nat, 0%nat) = (3%nat, 1%nat).
Proof.
  apply X10_test_nan_mismatch_fails. vm_compute. discriminate.
Defined.

(** X11. The test driver accepts a result that is greater than the expected
    vector on every axis, by whatever amount: [result != expected] only
    looks at [expected - result <= eps]. *)
Theorem X11_test_accepts_overshoot (ss : Segment3D * Segment3D)
    (expected : Vector3D) (passed failed : nat) :
  let result := Intersect (fst ss) (snd ss) in
  (X expected - X result <? of_Z 0)%D = true ->
  (Y expected - Y result <? of_Z 0)%D = true ->
  (Z expected - Z result <? of_Z 0)%D = true ->
  test_step ss expected (passed, failed) = (S passed, failed).
Proof.
  intros result HX HY HZ. unfold test_step, not_equals. fold result.
  destruct (is_nan result && is_nan expected); [reflexivity|].
  assert (equals result expected = true) as ->; [|reflexivity].
  unfold equals.
  rewrite (negative_le_eps _ HX), (negative_le_eps _ HY),
    (negative_le_eps _ HZ). reflexivity.
Qed.

(** The ninth test returns [(1, 1, 1)]; it would also pass with
    [(0, 0, 0)] as the expected vector. *)
Lemma X11_test_accepts_overshoot_witness :
  Intersect (segZ 0 0 0 1 1 1) (segZ 1 1 1 2 2 2) = vecZ 1 1 1 /\
  test_step (segZ 0 0 0 1 1 1, segZ 1 1 1 2 2 2) (vecZ 0 0 0) (8%nat, 0%nat)
  = (9%nat, 0%nat).
Proof.
  split; [vm_compute; reflexivity|].
  apply X11_test_accepts_overshoot; vm_compute; reflexivity.
Defined.

(** X12. The loop of [test_intersection] runs up to [segments.size()] but
    indexes [expected_results]: when [expected_results] has fewer entries
    than the loop reads (from an index [i] within it), the loop reads past
    its end (undefined in the source, no result here), whatever the tests
    before did. *)
Theorem X12_test_loop_out_of_bounds (segs : list (Segment3D * Segment3D))
    (expected : list Vector3D) (i : nat) (counters : nat * nat) :
  (i <= List.length expected < i + List.length segs)%nat ->
  test_loop segs expected i counters = None.
Proof.
  revert i counters.
  induction segs as [|ss rest IH]; intros i c Hlen; simpl in *; [lia|].
  destruct (nth_error expected i) as [e|] eqn:E; [|reflexivity].
  apply IH. assert (nth_error expected i <> None) as N by congruence.
  apply nth_error_Some in N. lia.
Qed.

(** The ten tests against the first nine expected results. *)
Lemma X12_test_loop_out_of_bounds_witness :
  test_loop segments (removelast expected_results) 0 (0%nat, 0%nat) = None.
Proof.
  apply X12_test_loop_out_of_bounds.
  change (0 <= 9 < 0 + 10)%nat. lia.
Defined.

(** ** Orientation of the segments *)

Lemma minus_opposite p q :
  opposite (X (q - p)%V) (X (p - q)%V) /\
  opposite (Y (q - p)%V) (Y (p - q)%V) /\
  opposite (Z (q - p)%V) (Z (p - q)%V).
Proof. unfold minus; cbn [X Y Z]. repeat split; apply sub_antisym. Qed.

(** The length of a cross product only sees its operands up to opposites. *)
Lemma length_cross_product_opposite v v' u u' :
  opposite (X v') (X v) -> opposite (Y v') (Y v) -> opposite (Z v') (Z v) ->
  (u' = u \/ (opposite (X u') (X u) /\ opposite (Y u') (Y u)
              /\ opposite (Z u') (Z u))) ->
  v' = v \/ u' = u ->
  length (cross_product v' u') = length (cross_product v u).
Proof.
  intros VX VY VZ Hu Hone. unfold length, cross_product; cbn [X Y Z].
  destruct Hone as [->| ->].
  - destruct Hu as [->|(UX & UY & UZ)]; [reflexivity|].
    rewrite (opposite_square _ _ (opposite_sub _ _ _ _
               (opposite_mul_r _ _ (Y v) UZ) (opposite_mul_r _ _ (Z v) UY))).
    rewrite (opposite_square _ _ (opposite_neg _ _ (opposite_sub _ _ _ _
               (opposite_mul_r _ _ (X v) UZ) (opposite_mul_r _ _ (Z v) UX)))).
    rewrite (opposite_square _ _ (opposite_sub _ _ _ _
               (opposite_mul_r _ _ (X v) UY) (opposite_mul_r _ _ (Y v) UX))).
    reflexivity.
  - rewrite (opposite_square _ _ (opposite_sub _ _ _ _
               (opposite_mul_l _ _ (Z u) VY) (opposite_mul_l _ _ (Y u) VZ))).
    rewrite (opposite_square _ _ (opposite_neg _ _ (opposite_sub _ _ _ _
               (opposite_mul_l _ _ (Z u) VX) (opposite_mul_l _ _ (X u) VZ)))).
    rewrite (opposite_square _ _ (opposite_sub _ _ _ _
               (opposite_mul_l _ _ (Y u) VX) (opposite_mul_l _ _ (X u) VY))).
    reflexivity.
Qed.

(** X13. The parallel test of [Intersect] does not depend on the
    orientation of either segment: exchanging the start and the end of
    segment 1, or of segment 2, leaves the length of the cross product of
    the directions, and so the branch taken, unchanged. *)
Theorem X13_parallel_test_orientation (s1 s2 : Segment3D) :
  parallel_test (reverse s1) s2 = parallel_test s1 s2 /\
  parallel_test s1 (reverse s2) = parallel_test s1 s2.
Proof.
  unfold parallel_test, reverse; cbn [start end_]. cbv zeta.
  destruct (minus_opposite (start s1) (end_ s1)) as (UX & UY & UZ).
  destruct (minus_opposite (start s2) (end_ s2)) as (VX & VY & VZ).
  split.
  - rewrite (length_cross_product_comm (start s1 - end_ s1)%V),
      (length_cross_product_comm (end_ s1 - start s1)%V).
    rewrite (length_cross_product_opposite
               (end_ s1 - start s1)%V (start s1 - end_ s1)%V
               (end_ s2 - start s2)%V (end_ s2 - start s2)%V);
      auto using sub_antisym.
    all: unfold minus; cbn [X Y Z]; apply sub_antisym.
  - rewrite (length_cross_product_opposite
               (end_ s2 - start s2)%V (start s2 - end_ s2)%V
               (end_ s1 - start s1)%V (end_ s1 - start s1)%V);
      auto using sub_antisym.
    all: unfold minus; cbn [X Y Z]; apply sub_antisym.
Qed.

(** ** Sums and differences of vectors *)

(** X14. [operator+] is commutative, exactly, and [operator-] is
    anti-commutative up to the sign of zeros: [q - p] has on each axis the
    opposite of the coordinate of [p - q], or both are zeros.  (The source
    forms both [P1 - Q1] and [Q1 - P1].) *)
Theorem X14_plus_comm_minus_anticomm (p q : Vector3D) :
  (p + q)%V = (q + p)%V /\
  opposite (X (q - p)%V) (X (p - q)%V) /\
  opposite (Y (q - p)%V) (Y (p - q)%V) /\
  opposite (Z (q - p)%V) (Z (p - q)%V).
Proof.
  split; [|apply minus_opposite].
  unfold plus.
  rewrite (add_comm (X p)), (add_comm (Y p)), (add_comm (Z p)). reflexivity.
Qed.

(** * What [Intersect] returns, and its divisions by zero *)

Lemma div_zero_inf_or_nan x z :
  is_zero z = true -> inf_or_nan (x / z)%D = true.
Proof. destruct z; try discriminate. intros _. apply div_by_zero. Qed.

(** [round_to_n] leaves an infinity or NaN as it is. *)
Lemma round_to_n_6_inf_or_nan x : inf_or_nan x = true -> round_to_n x 6 = x.
Proof. destruct x as [|[|]| |]; try discriminate; reflexivity. Qed.

Lemma inf_outside_unit x :
  inf_or_nan x = true -> isnan x = false -> outside_unit x = true.
Proof. destruct x as [|[|]| |]; try discriminate; reflexivity. Qed.

(** With two projections that are infinities or NaN the clipped overlap is
    empty or starts at parameter 0. *)
Lemma overlap_inf_or_nan t0 t1 :
  inf_or_nan t0 = true -> inf_or_nan t1 = true ->
  let sw := swap_if_gt t0 t1 in
  (max (of_Z 0) (fst sw) >? min (of_Z 1) (snd sw))%D = true \/
  max (of_Z 0) (fst sw) = of_Z 0.
Proof.
  destruct t0 as [|[|]| |], t1 as [|[|]| |]; try discriminate; intros _ _;
    vm_compute; auto.
Qed.

Lemma param_t_quotient s1 s2 :
  exists num : double,
    param_t s1 s2 = round_to_n (num / demoninator s1 s2)%D 6.
Proof. eexists. reflexivity. Qed.

Lemma zero_demoninator_param_t s1 s2 :
  is_zero (demoninator s1 s2) = true -> inf_or_nan (param_t s1 s2) = true.
Proof.
  intros Hz. destruct (param_t_quotient s1 s2) as [num ->].
  pose proof (div_zero_inf_or_nan num _ Hz) as H.
  rewrite (round_to_n_6_inf_or_nan _ H). exact H.
Qed.

(** An infinite or NaN [t] ends in the all-NaN vector: an infinity is
    outside the unit interval, and NaN makes [Pt] that vector. *)
Lemma not_finite_param_t_sentinel s1 s2 :
  parallel_test s1 s2 = false -> inf_or_nan (param_t s1 s2) = true ->
  Intersect s1 s2 = NaN_vector.
Proof.
  intros Hp Ht. destruct (isnan (param_t s1 s2)) eqn:N.
  - apply non_parallel_nan_t; assumption.
  - rewrite (Intersect_non_parallel s1 s2 Hp). cbv zeta.
    rewrite (inf_outside_unit _ Ht N), orb_true_r. reflexivity.
Qed.

(** When [u.u] is zero both projections are quotients by zero; what is
    left of the parallel branch is the all-NaN vector or [P1]. *)
Lemma zero_direction_overlap s1 s2 :
  parallel_test s1 s2 = true ->
  is_zero (dot_product (end_ s1 - start s1)%V (end_ s1 - start s1)%V) = true ->
  Intersect s1 s2 = NaN_vector \/ same_point (Intersect s1 s2) (start s1).
Proof.
  intros Hp Hz.
  destruct (line_distance s1 s2 >? of_Z 0)%D eqn:Hd.
  - left. revert Hp Hd.
    unfold parallel_test, line_distance, Intersect. intros -> ->. reflexivity.
  - rewrite (Intersect_collinear s1 s2 Hp Hd). cbv zeta.
    destruct (overlap_inf_or_nan (projection s1 (start s2))
                (projection s1 (end_ s2))) as [E|E];
      try (apply div_zero_inf_or_nan, Hz).
    + rewrite E. left. reflexivity.
    + rewrite E. destruct (of_Z 0 >? _)%D; [left; reflexivity|right].
      destruct (parallel_test_finite_start s1 s2 Hp) as [HP Hu].
      apply point_at_zero; assumption.
Qed.

(** A result that is not the all-NaN vector has no NaN coordinate, comes
    from finite endpoints and is [P1 + u * t] for a finite [t] of the unit
    interval. *)
Lemma Intersect_point s1 s2 :
  Intersect s1 s2 <> NaN_vector ->
  is_nan (Intersect s1 s2) = false /\ finite_segment s1 /\ finite_segment s2 /\
  exists t : double,
    is_finite t = true /\ (of_Z 0 <=? t)%D = true /\ (t <=? of_Z 1)%D = true /\
    Intersect s1 s2 = (start s1 + (end_ s1 - start s1) * t)%V.
Proof.
  intros H.
  assert (finite_vector (end_ s1 - start s1)%V /\
          finite_vector (end_ s2 - start s2)%V) as [Fu Fv].
  { destruct (finite_vector_dec (end_ s1 - start s1)%V) as [Fu|Nu];
      [destruct (finite_vector_dec (end_ s2 - start s2)%V) as [Fv|Nv]|].
    - split; assumption.
    - contradiction H. apply not_finite_direction_sentinel.
      unfold finite_vector. intros [_ (A & B & C)].
      rewrite A, B, C in Nv. destruct Nv as [N|[N|N]]; discriminate.
    - contradiction H. apply not_finite_direction_sentinel.
      unfold finite_vector. intros [(A & B & C) _].
      rewrite A, B, C in Nu. destruct Nu as [N|[N|N]]; discriminate. }
  destruct (minus_finite_inv _ _ Fu) as [FP2 FP1].
  destruct (minus_finite_inv _ _ Fv) as [FQ2 FQ1].
  assert (exists t : double,
             (of_Z 0 <=? t)%D = true /\ (t <=? of_Z 1)%D = true /\
             Intersect s1 s2 = (start s1 + (end_ s1 - start s1) * t)%V)
    as (t & Hlo & Hhi & Ht).
  { destruct (parallel_test s1 s2) eqn:Hp.
    - destruct (line_distance s1 s2 >? of_Z 0)%D eqn:Hd.
      + contradiction H. revert Hp Hd.
        unfold parallel_test, line_distance, Intersect. intros -> ->.
        reflexivity.
      + rewrite (Intersect_collinear s1 s2 Hp Hd) in *. cbv zeta in *.
        destruct (max _ _ >? _)%D eqn:E; [contradiction H; reflexivity|].
        destruct (clip_in_unit _ _ E) as [Hlo Hhi].
        eexists. split; [exact Hlo|]. split; [exact Hhi|reflexivity].
    - rewrite (Intersect_non_parallel s1 s2 Hp) in *. cbv zeta in *.
      destruct (_ >? eps)%D; [contradiction H; reflexivity|].
      unfold outside_unit in *.
      destruct (param_t s1 s2 >? of_Z 1)%D eqn:E1;
        [contradiction H; reflexivity|].
      destruct (param_t s1 s2 <? of_Z 0)%D eqn:E0;
        [contradiction H; reflexivity|].
      destruct (_ || _); [contradiction H; reflexivity|].
      cbn [orb] in H. exists (param_t s1 s2).
      destruct (isnan (param_t s1 s2)) eqn:N.
      + exfalso. apply H.
        rewrite (isnan_true _ N), times_nan_r, plus_nan_r. reflexivity.
      + repeat split; try reflexivity; apply not_lt_le; try assumption;
          reflexivity. }
  pose proof (unit_interval_finite _ Hlo Hhi) as Ft.
  split; [|split; [split; assumption|split; [split; assumption|]]].
  - destruct FP1 as (PX & PY & PZ). destruct Fu as (UX & UY & UZ).
    rewrite Ht. unfold is_nan, plus, times; cbn [X Y Z].
    rewrite !add_finite_not_nan;
      try assumption; try (apply mul_finite_not_nan; assumption).
    reflexivity.
  - exists t. repeat split; assumption.
Qed.

(** C9. [Intersect] has a result on every pair of segments, zero-length
    ones included, and the all-NaN vector is its only failure signal:
    every other result has no NaN coordinate, comes from finite endpoints
    and is the point [P1 + u * t] of a finite parameter [0 <= t <= 1]
    (first part).  A division by zero gives an infinity or NaN and the
    computation goes on with it:
    - a zero [length(u)] makes the distance [d] infinite or NaN;
    - a zero [u.u] makes every projection infinite or NaN, and the
      parallel branch then ends in the all-NaN vector or in [P1] (up to the
      sign of a zero coordinate);
    - a zero [a*c - b*b] makes [t] infinite or NaN, and the non-parallel
      branch then ends in the all-NaN vector;
    - a zero [c = v.v] makes [s] infinite or NaN.
    (That no operation traps is the arithmetic taken here, IEEE-754 with
    its default exception handling.) *)
Theorem C9_sentinel_only_failure (s1 s2 : Segment3D) :
  let u := (end_ s1 - start s1)%V in
  let v := (end_ s2 - start s2)%V in
  (Intersect s1 s2 = NaN_vector \/
   (is_nan (Intersect s1 s2) = false /\
    finite_segment s1 /\ finite_segment s2 /\
    exists t : double,
      is_finite t = true /\
      (of_Z 0 <=? t)%D = true /\ (t <=? of_Z 1)%D = true /\
      Intersect s1 s2 = (start s1 + u * t)%V)) /\
  (is_zero (length u) = true -> inf_or_nan (line_distance s1 s2) = true) /\
  (is_zero (dot_product u u) = true ->
   (forall Q : Vector3D, inf_or_nan (projection s1 Q) = true) /\
   (parallel_test s1 s2 = true ->
    Intersect s1 s2 = NaN_vector \/
    same_point (Intersect s1 s2) (start s1))) /\
  (is_zero (demoninator s1 s2) = true ->
   inf_or_nan (param_t s1 s2) = true /\
   (parallel_test s1 s2 = false -> Intersect s1 s2 = NaN_vector)) /\
  (is_zero (dot_product v v) = true -> inf_or_nan (param_s s1 s2) = true).
Proof.
  intros u v. split; [|split; [|split; [|split]]].
  - destruct (NaN_vector_dec (Intersect s1 s2)) as [E|E]; [left; exact E|].
    right. apply Intersect_point, E.
  - intros Hz. apply div_zero_inf_or_nan, Hz.
  - intros Hz. split.
    + intros Q. apply div_zero_inf_or_nan, Hz.
    + intros Hp. apply zero_direction_overlap; assumption.
  - intros Hz. pose proof (zero_demoninator_param_t s1 s2 Hz) as Ht.
    split; [exact Ht|]. intros Hp.
    apply not_finite_param_t_sentinel; assumption.
  - intros Hz. apply div_zero_inf_or_nan, Hz.
Qed.

(** Divisions by zero that do occur:
    - the zero-length segment [(5,5,5) .. (5,5,5)] against
      [(0,0,0) .. (1,0,0)]: the distance and the projections are [0/0] and
      the result is [(5,5,5)];
    - [(0,0,0) .. (2^30,1,0)] against [(0,1,0) .. (2^30,1,0)]:
      [a*c - b*b] is rounded to zero, [t] is [+inf] and the result is the
      all-NaN vector;
    - [(0,0,0) .. (1,0,0)] against the zero-length [(5,5,5) .. (5,5,5)]:
      [c] is zero and [s] is NaN.
    The first test of [test_intersection] has a result without NaN. *)
Lemma C9_sentinel_only_failure_witness :
  (inf_or_nan (line_distance (segZ 5 5 5 5 5 5) (segZ 0 0 0 1 0 0)) = true /\
   (forall Q : Vector3D,
       inf_or_nan (projection (segZ 5 5 5 5 5 5) Q) = true) /\
   same_point (Intersect (segZ 5 5 5 5 5 5) (segZ 0 0 0 1 0 0))
              (vecZ 5 5 5)) /\
  (inf_or_nan (param_t (segZ 0 0 0 (2 ^ 30) 1 0) (segZ 0 1 0 (2 ^ 30) 1 0))
   = true /\
   Intersect (segZ 0 0 0 (2 ^ 30) 1 0) (segZ 0 1 0 (2 ^ 30) 1 0)
   = NaN_vector) /\
  inf_or_nan (param_s (segZ 0 0 0 1 0 0) (segZ 5 5 5 5 5 5)) = true /\
  is_nan (Intersect (segZ 1 0 0 (-1) 0 0) (segZ 0 1 0 0 (-1) 0)) = false.
Proof.
  split; [|split; [|split]].
  - pose proof (C9_sentinel_only_failure (segZ 5 5 5 5 5 5)
                  (segZ 0 0 0 1 0 0)) as H.
    cbv zeta in H. destruct H as (_ & Hd & Hp & _).
    split; [apply Hd; vm_compute; reflexivity|].
    destruct Hp as [HQ HI]; [vm_compute; reflexivity|].
    split; [exact HQ|].
    destruct HI as [HI|HI]; [vm_compute; reflexivity| |exact HI].
    vm_compute in HI. discriminate.
  - pose proof (C9_sentinel_only_failure (segZ 0 0 0 (2 ^ 30) 1 0)
                  (segZ 0 1 0 (2 ^ 30) 1 0)) as H.
    cbv zeta in H. destruct H as (_ & _ & _ & H & _).
    destruct H as [Ht HI]; [vm_compute; reflexivity|].
    split; [exact Ht|]. apply HI. vm_compute. reflexivity.
  - pose proof (C9_sentinel_only_failure (segZ 0 0 0 1 0 0)
                  (segZ 5 5 5 5 5 5)) as H.
    cbv zeta in H. destruct H as (_ & _ & _ & _ & H).
    apply H. vm_compute. reflexivity.
  - pose proof (C9_sentinel_only_failure (segZ 1 0 0 (-1) 0 0)
                  (segZ 0 1 0 0 (-1) 0)) as H.
    cbv zeta in H. destruct H as ([H|H] & _).
    + vm_compute in H. discriminate.
    + apply H.
Defined.
